(** * BookReviewsPlatform: catalogue, review and access rules

    A shallow embedding of the Express/Mongoose back end
    (models Book, Review, User; the auth middleware; the validation chains;
    bookRoutes, reviewRoutes, and the profile, leaderboard and search routes
    of userRoutes) with the collections as explicit state, and of the
    arithmetic of the front end's rating chart.

    Conventions
    - a JavaScript number is an exact rational ([Q]) or an integer ([Z]);
      IEEE rounding of the division in [averageRating] is not modelled;
    - a collection is the list of its documents in insertion order;
    - a handler takes the store and the request and returns the new store
      (when it writes) and what it sends: [Json], [Failure] or, for a
      rejected promise that [asyncHandler] hands to the error middleware,
      [Raised]. *)

From Stdlib Require Import List ZArith QArith Qround String Ascii Bool Lia.
From Stdlib Require Import Permutation Sorted.
Import ListNotations.

Open Scope string_scope.
Open Scope list_scope.
Open Scope Z_scope.

(** ** The JavaScript runtime used by the handlers *)

Module Js.

(** [Math.round]: the nearest integer, halves going up. *)
Definition Math_round (x : Q) : Z := Qfloor (x + (1 # 2))%Q.

Definition Math_ceil (x : Q) : Z := Qceiling x.

(** [if (s)] on a query-string parameter: defined and not empty. *)
Definition truthy (s : option string) : bool :=
  match s with
  | Some s => negb (s =? "")%string
  | None => false
  end.

(** The two kinds of value that meet at a [===] in the handlers: a string
    primitive and an object (a Mongoose [ObjectId], given by its hex
    string). *)
Inductive value : Type :=
| VString (s : string)
| VObject (hex : string).

(** [a === b]. Two strings are compared by content. An object is strictly
    equal to nothing but itself, in particular never to a primitive; the
    handlers compare no object with itself. *)
Definition strict_eq (a b : value) : bool :=
  match a, b with
  | VString s, VString t => (s =? t)%string
  | _, _ => false
  end.

(** [Array.prototype.sort(cmp)]: stable; [a] stays before [b] unless
    [cmp(a, b) > 0]. *)
Section Sort.
Context {A : Type} (cmp : A -> A -> Q).

Fixpoint insert (x : A) (l : list A) : list A :=
  match l with
  | [] => [x]
  | y :: l' => if Qle_bool (cmp x y) 0 then x :: l else y :: insert x l'
  end.

Fixpoint sort (l : list A) : list A :=
  match l with
  | [] => []
  | x :: l' => insert x (sort l')
  end.

End Sort.

(** [Array.prototype.indexOf]: first index or [-1]. *)
Fixpoint indexOf {A : Type} (eqb : A -> A -> bool) (l : list A) (x : A) : Z :=
  match l with
  | [] => -1
  | y :: l' =>
      if eqb y x then 0
      else let i := indexOf eqb l' x in if i =? -1 then -1 else i + 1
  end.

(** [l.splice(i, 1)] for [0 <= i]: the array without its element [i]. *)
Fixpoint splice1 {A : Type} (i : nat) (l : list A) : list A :=
  match l, i with
  | [], _ => []
  | _ :: l', O => l'
  | y :: l', S i' => y :: splice1 i' l'
  end.

Definition push {A : Type} (l : list A) (x : A) : list A := l ++ [x].

(** [s.replace(pat, '')] with a string pattern: the first occurrence only. *)
Fixpoint remove_first (pat s : string) : string :=
  if prefix pat s then substring (String.length pat) (String.length s) s
  else match s with
       | EmptyString => EmptyString
       | String c s' => String c (remove_first pat s')
       end.

(** [String.prototype.trim] as validator.js applies it. *)
Definition is_space (c : ascii) : bool :=
  let n := nat_of_ascii c in
  ((n =? 32) || (n =? 9) || (n =? 10) || (n =? 11) || (n =? 12) || (n =? 13))%nat.

Fixpoint trim_left (s : string) : string :=
  match s with
  | String c s' => if is_space c then trim_left s' else s
  | EmptyString => EmptyString
  end.

Fixpoint trim_right (s : string) : string :=
  match s with
  | EmptyString => EmptyString
  | String c s' =>
      match trim_right s' with
      | EmptyString => if is_space c then EmptyString else String c EmptyString
      | t => String c t
      end
  end.

Definition trim (s : string) : string := trim_right (trim_left s).

(** [Array.prototype.find] with a predicate that may throw. *)
Fixpoint find_exn {A E : Type} (p : A -> E + bool) (l : list A) : E + option A :=
  match l with
  | [] => inr None
  | x :: l' =>
      match p x with
      | inl e => inl e
      | inr true => inr (Some x)
      | inr false => find_exn p l'
      end
  end.

End Js.

(** ** Documents and collections *)

Definition ObjectId := string.
Definition Date := Z.

(** models/User.ts (the fields the routes read). *)
Record User : Type := mkUser {
  user_id : ObjectId;
  user_name : string;
  user_email : string;
  user_isActive : bool
}.

(** models/Book.ts. *)
Record Book : Type := mkBook {
  book_id : ObjectId;
  title : string;
  author : string;
  description : string;
  genre : string;
  publishedYear : Z;
  isbn : option string;
  coverImage : string;
  pageCount : option Z;
  language : string;
  publisher : option string;
  addedBy : ObjectId;
  tags : list string;
  book_isActive : bool;
  book_createdAt : Date
}.

(** models/Review.ts. *)
Record Review : Type := mkReview {
  review_id : ObjectId;
  bookId : ObjectId;
  userId : ObjectId;
  rating : Z;
  reviewText : string;
  review_title : option string;
  likes : list ObjectId;
  review_isActive : bool;
  editedAt : option Date;
  review_createdAt : Date
}.

Record Store : Type := mkStore {
  users : list User;
  books : list Book;
  reviews : list Review
}.

(** What a handler sends. *)
Inductive Error : Type :=
| DuplicateKey        (* MongoServerError E11000 *)
| ValidationError     (* a schema validator refused a path *)
| TypeError.

Inductive Response (A : Type) : Type :=
| Json (status : Z) (data : A)
| Failure (status : Z) (message : string)
| Raised (err : Error).

Arguments Json {A} status data.
Arguments Failure {A} status message.
Arguments Raised {A} err.

(** ** Store queries *)

Definition oid_eqb (a b : ObjectId) : bool := (a =? b)%string.

(** [Model.findById(id)]. *)
Definition User_findById (st : Store) (id : ObjectId) : option User :=
  find (fun u => oid_eqb (user_id u) id) (users st).

Definition Book_findById (st : Store) (id : ObjectId) : option Book :=
  find (fun b => oid_eqb (book_id b) id) (books st).

(** [Book.findOne({ _id: id, isActive: true })]. *)
Definition Book_findOne_active (st : Store) (id : ObjectId) : option Book :=
  find (fun b => oid_eqb (book_id b) id && book_isActive b) (books st).

(** [Review.findOne({ _id: id, isActive: true })]. *)
Definition Review_findOne_active (st : Store) (id : ObjectId) : option Review :=
  find (fun r => oid_eqb (review_id r) id && review_isActive r) (reviews st).

(** [cursor.sort({ key: dir })], ties left in collection order. *)
Section StoreSort.
Context {A : Type} (le : A -> A -> bool).

Fixpoint sort_insert (x : A) (l : list A) : list A :=
  match l with
  | [] => [x]
  | y :: l' => if le x y then x :: l else y :: sort_insert x l'
  end.

Fixpoint sort_by (l : list A) : list A :=
  match l with
  | [] => []
  | x :: l' => sort_insert x (sort_by l')
  end.

End StoreSort.

(** ** Populated documents and virtuals *)

(** The [userId] path of a review as a query returns it: the raw reference,
    or what [populate] put there ([RefDoc None]: the user document is
    missing and Mongoose leaves [null]). *)
Inductive UserRef : Type :=
| RefId (id : ObjectId)
| RefDoc (u : option User).

Record PopReview : Type := mkPopReview {
  pr_review : Review;
  pr_user : UserRef
}.

(** A book as a query returns it: [book_reviews] is [Some] when the query
    populated the [reviews] virtual. *)
Record BookDoc : Type := mkBookDoc {
  doc : Book;
  book_reviews : option (list PopReview)
}.

Definition populate_userId (st : Store) (r : Review) : PopReview :=
  mkPopReview r (RefDoc (User_findById st (userId r))).

(** [.populate('reviews')]: the virtual of Book.ts (ref Review, localField
    _id, foreignField bookId). The populate calls of bookRoutes carry no
    [match], so every review document that references the book is
    attached. *)
Definition reviews_of (st : Store) (b : Book) : list Review :=
  filter (fun r => oid_eqb (bookId r) (book_id b)) (reviews st).

Definition populate_reviews_plain (st : Store) (b : Book) : list PopReview :=
  map (fun r => mkPopReview r (RefId (userId r))) (reviews_of st b).

(** [.populate({ path: 'reviews', populate: { path: 'userId' } })]. *)
Definition populate_reviews (st : Store) (b : Book) : list PopReview :=
  map (populate_userId st) (reviews_of st b).

(** The same with [options: { sort: { createdAt: -1 } }]. *)
Definition populate_reviews_sorted (st : Store) (b : Book) : list PopReview :=
  sort_by (fun x y => review_createdAt (pr_review y) <=? review_createdAt (pr_review x))
          (populate_reviews st b).

(** [bookSchema.virtual('averageRating')]. *)
Definition averageRating (d : BookDoc) : Q :=
  match book_reviews d with
  | None => 0%Q
  | Some [] => 0%Q
  | Some rs =>
      let sum := fold_left (fun acc r => acc + rating (pr_review r)) rs 0 in
      (inject_Z (Js.Math_round ((inject_Z sum / inject_Z (Z.of_nat (List.length rs))) * 10)%Q)
       / 10)%Q
  end.

(** [bookSchema.virtual('reviewCount')]. *)
Definition reviewCount (d : BookDoc) : Z :=
  match book_reviews d with
  | Some rs => Z.of_nat (List.length rs)
  | None => 0
  end.

(** [reviewSchema.virtual('likeCount')]. *)
Definition likeCount (r : Review) : Z := Z.of_nat (List.length (likes r)).

(** The rating counters of the single-book and review-list handlers:
    [{ 1: 0, 2: 0, 3: 0, 4: 0, 5: 0 }] and [dist[rating]++]. The schema keeps
    ratings in 1..5; another key is left out of the model. *)
Definition RatingDistribution := list (Z * Z).

Definition emptyDistribution : RatingDistribution :=
  [(1, 0); (2, 0); (3, 0); (4, 0); (5, 0)].

Definition increment (k : Z) (d : RatingDistribution) : RatingDistribution :=
  map (fun kv => if fst kv =? k then (fst kv, snd kv + 1) else kv) d.

(** ** middleware/auth.ts *)

(** The outcomes of [jwt.verify]. *)
Inductive JwtResult : Type :=
| Decoded (id : ObjectId)
| JsonWebTokenError
| TokenExpiredError
| OtherJwtError.

Inductive AuthResult : Type :=
| Next (user : User)                        (* req.user = user; next() *)
| Reject (status : Z) (message : string).

(** ** routes/bookRoutes.ts: request shapes *)

Inductive SortKey : Type :=
| SortTitle | SortAuthor | SortPublishedYear | SortAverageRating | SortCreatedAt.

Inductive SortOrder : Type := Asc | Desc.

(** [req.query] of GET /api/books. Text parameters are kept as sent
    ([None]: absent); numeric ones are given as [parseInt]/[parseFloat]
    reads them, [None] standing for an absent or empty parameter. [page] and
    [limit] carry their defaults 1 and 12 when absent. *)
Record BooksQuery : Type := mkBooksQuery {
  q_page : Z;
  q_limit : Z;
  q_search : option string;
  q_genre : option string;
  q_sortBy : SortKey;
  q_sortOrder : SortOrder;
  q_minYear : option Z;
  q_maxYear : option Z;
  q_minRating : option Q;
  q_author : option string
}.

Record Pagination : Type := mkPagination {
  currentPage : Z;
  totalPages : Z;
  totalBooks : Z;
  hasNextPage : bool;
  hasPrevPage : bool
}.

Record BooksResponse : Type := mkBooksResponse {
  resp_books : list BookDoc;
  resp_pagination : Pagination;
  resp_genres : list string
}.

Record BookResponse : Type := mkBookResponse {
  resp_book : BookDoc;
  resp_ratingDistribution : RatingDistribution;
  resp_userReview : option PopReview       (* None: undefined or null *)
}.

(** [req.body] of POST and PUT /api/books: any subset of the schema paths
    ([None]: the key is absent). *)
Record BookBody : Type := mkBookBody {
  body_title : option string;
  body_author : option string;
  body_description : option string;
  body_genre : option string;
  body_publishedYear : option Z;
  body_isbn : option string;
  body_coverImage : option string;
  body_pageCount : option Z;
  body_language : option string;
  body_publisher : option string;
  body_tags : option (list string);
  body_addedBy : option ObjectId;
  body_isActive : option bool
}.

Definition GENRES : list string :=
  [ "Fiction"; "Non-Fiction"; "Mystery"; "Romance"; "Sci-Fi"; "Fantasy";
    "Thriller"; "Biography"; "History"; "Self-Help"; "Business";
    "Technology"; "Health"; "Travel"; "Cooking"; "Art"; "Religion";
    "Philosophy"; "Poetry"; "Drama"; "Horror"; "Adventure"; "Crime";
    "Young Adult"; "Children"; "Comics"; "Other" ].

Definition str_in (s : string) (l : list string) : bool :=
  existsb (fun t => (t =? s)%string) l.

Definition len_between (lo hi : nat) (s : string) : bool :=
  ((lo <=? String.length s) && (String.length s <=? hi))%nat.

Definition opt_all {A : Type} (p : A -> bool) (o : option A) : bool :=
  match o with
  | Some a => p a
  | None => true
  end.

Definition opt_else {A : Type} (o : option A) (d : A) : A :=
  match o with
  | Some a => a
  | None => d
  end.

Section Platform.

(** The collaborators the handlers call into: token verification, the
    store's case-insensitive [$regex] match (pattern, subject), the ISBN
    pattern of the Book schema, and the clock's year. *)
Variable jwt_verify : string -> JwtResult.
Variable regex_i : string -> string -> bool.
Variable isbn_match : string -> bool.
Variable currentYear : Z.

(** [auth]: the bearer token must be present, verify, and name an active
    user. *)
Definition auth (st : Store) (authorization : option string) : AuthResult :=
  match option_map (Js.remove_first "Bearer ") authorization with
  | None => Reject 401 "Access denied. No token provided."
  | Some token =>
      if (token =? "")%string then Reject 401 "Access denied. No token provided."
      else
        match jwt_verify token with
        | Decoded id =>
            match User_findById st id with
            | Some user =>
                if user_isActive user then Next user
                else Reject 401 "Invalid token or user not found."
            | None => Reject 401 "Invalid token or user not found."
            end
        | JsonWebTokenError => Reject 401 "Invalid token."
        | TokenExpiredError => Reject 401 "Token expired."
        | OtherJwtError => Reject 500 "Server error during authentication."
        end
  end.

(** A route [router.get(path, auth, handler)]. *)
Definition with_auth {A : Type} (st : Store) (authorization : option string)
    (handler : User -> Response A) : Response A :=
  match auth st authorization with
  | Next user => handler user
  | Reject status message => Failure status message
  end.

(** *** GET /api/books *)

(** The [query] object the handler builds. [minRating] is no part of it. *)
Definition books_query (q : BooksQuery) (b : Book) : bool :=
  book_isActive b
  && (match q_search q with
      | Some s =>
          if Js.truthy (Some s)
          then regex_i s (title b) || regex_i s (author b) || regex_i s (description b)
          else true
      | None => true
      end)
  && (match q_genre q with
      | Some g =>
          if Js.truthy (Some g) && negb (g =? "all")%string
          then (genre b =? g)%string else true
      | None => true
      end)
  && (match q_author q with
      | Some a => if Js.truthy (Some a) then regex_i a (author b) else true
      | None => true
      end)
  && opt_all (fun y => y <=? publishedYear b) (q_minYear q)
  && opt_all (fun y => publishedYear b <=? y) (q_maxYear q).

(** The [sort] object: [{ createdAt: -1 }] for averageRating, else
    [{ [sortBy]: sortOrder === 'desc' ? -1 : 1 }]. *)
Definition key_le (k : SortKey) (x y : Book) : bool :=
  match k with
  | SortTitle => String.leb (title x) (title y)
  | SortAuthor => String.leb (author x) (author y)
  | SortPublishedYear => publishedYear x <=? publishedYear y
  | SortAverageRating | SortCreatedAt => book_createdAt x <=? book_createdAt y
  end.

Definition books_order (q : BooksQuery) (x y : Book) : bool :=
  match q_sortBy q with
  | SortAverageRating => key_le SortCreatedAt y x
  | k =>
      match q_sortOrder q with
      | Desc => key_le k y x
      | Asc => key_le k x y
      end
  end.

Definition books_skip (q : BooksQuery) : Z := (q_page q - 1) * q_limit q.

(** [Book.find(query).populate(...).sort(sort).skip(skip).limit(limit)]. *)
Definition fetch_page (st : Store) (q : BooksQuery) : list BookDoc :=
  map (fun b => mkBookDoc b (Some (populate_reviews st b)))
      (firstn (Z.to_nat (q_limit q))
         (skipn (Z.to_nat (books_skip q))
            (sort_by (books_order q) (filter (books_query q) (books st))))).

(** [books.filter(book => book.averageRating >= parseFloat(minRating))]. *)
Definition rating_filter (q : BooksQuery) (page : list BookDoc) : list BookDoc :=
  match q_minRating q with
  | Some m => filter (fun d => Qle_bool m (averageRating d)) page
  | None => page
  end.

(** The comparator of the in-memory sort:
    [(b.averageRating - a.averageRating) * order], [order] being -1 for
    'desc' and 1 otherwise. *)
Definition rating_cmp (o : SortOrder) (a b : BookDoc) : Q :=
  let order := match o with Desc => (-1)%Q | Asc => 1%Q end in
  ((averageRating b - averageRating a) * order)%Q.

Definition rating_sort (q : BooksQuery) (l : list BookDoc) : list BookDoc :=
  match q_sortBy q with
  | SortAverageRating => Js.sort (rating_cmp (q_sortOrder q)) l
  | _ => l
  end.

(** [Book.countDocuments(query)]. *)
Definition count_books (st : Store) (q : BooksQuery) : Z :=
  Z.of_nat (List.length (filter (books_query q) (books st))).

(** [Book.distinct('genre', { isActive: true })], then [.sort()]. *)
Definition all_genres (st : Store) : list string :=
  sort_by String.leb
    (nodup string_dec (map genre (filter book_isActive (books st)))).

Definition listBooks (st : Store) (q : BooksQuery) (user : User)
  : Response BooksResponse :=
  let books := fetch_page st q in
  let filteredBooks := rating_sort q (rating_filter q books) in
  let total := count_books st q in
  let pages := Js.Math_ceil (inject_Z total / inject_Z (q_limit q))%Q in
  Json 200
    (mkBooksResponse filteredBooks
       (mkPagination (q_page q) pages total (q_page q <? pages) (1 <? q_page q))
       (all_genres st)).

Definition GET_books (st : Store) (authorization : option string)
    (q : BooksQuery) : Response BooksResponse :=
  with_auth st authorization (listBooks st q).

(** *** GET /api/books/:id *)

(** [r.userId._id.toString() === req.user._id]. The left operand is a
    string; the right one is the [_id] of the Mongoose document that [auth]
    stored in [req.user], an ObjectId object. Reading [_id] off a [null]
    user throws. *)
Definition is_own_review (me : User) (r : PopReview) : Error + bool :=
  match pr_user r with
  | RefDoc (Some u) =>
      inr (Js.strict_eq (Js.VString (user_id u)) (Js.VObject (user_id me)))
  | RefId id =>
      inr (Js.strict_eq (Js.VString id) (Js.VObject (user_id me)))
  | RefDoc None => inl TypeError
  end.

(** [req.user ? book.reviews?.find(...) : null]. *)
Definition own_review (req_user : option User) (rs : list PopReview)
  : Error + option PopReview :=
  match req_user with
  | Some me => Js.find_exn (is_own_review me) rs
  | None => inr None
  end.

Definition getBook (st : Store) (id : ObjectId) (req_user : option User)
  : Response BookResponse :=
  match Book_findOne_active st id with
  | None => Failure 404 "Book not found"
  | Some b =>
      let rs := populate_reviews_sorted st b in
      let dist :=
        fold_left (fun d r => increment (rating (pr_review r)) d) rs emptyDistribution in
      match own_review req_user rs with
      | inl e => Raised e
      | inr mine => Json 200 (mkBookResponse (mkBookDoc b (Some rs)) dist mine)
      end
  end.

Definition GET_book (st : Store) (authorization : option string) (id : ObjectId)
  : Response BookResponse :=
  with_auth st authorization (fun user => getBook st id (Some user)).

(** *** GET /api/books/:id/similar (no [auth]) *)

Definition similar_query (id : ObjectId) (target : Book) (b : Book) : bool :=
  negb (oid_eqb (book_id b) id)
  && book_isActive b
  && ((genre b =? genre target)%string
      || (author b =? author target)%string
      || existsb (fun t => str_in t (tags target)) (tags b)).

Definition similarBooks (st : Store) (id : ObjectId) : Response (list BookDoc) :=
  match Book_findById st id with
  | None => Failure 404 "Book not found"
  | Some book =>
      Json 200
        (map (fun b => mkBookDoc b (Some (populate_reviews_plain st b)))
           (firstn 6
              (sort_by (fun x y => book_createdAt y <=? book_createdAt x)
                 (filter (similar_query id book) (books st)))))
  end.

(** *** routes/authRoutes.ts: GET /api/auth/me (after [auth]) *)

Record MeResponse : Type := mkMeResponse {
  me_user : option User;
  me_books : list Book;
  me_reviews : list Review
}.

(** [User.findById(id).populate('books').populate('reviews')]: the virtuals
    of User.ts (foreignField addedBy, resp. userId), populated without a
    [match]. *)
Definition getMe (st : Store) (user : User) : Response MeResponse :=
  Json 200
    (match User_findById st (user_id user) with
     | Some u =>
         mkMeResponse (Some u)
           (filter (fun b => oid_eqb (addedBy b) (user_id u)) (books st))
           (filter (fun r => oid_eqb (userId r) (user_id u)) (reviews st))
     | None => mkMeResponse None [] []
     end).

(** *** middleware/validation.ts: validateBook *)

(** The chain trims title, author and description in place and checks them,
    the genre and the year; every other key of the body passes through
    untouched. [None]: 400 'Validation failed'. *)
Definition validateBook (body : BookBody) : option BookBody :=
  let t := Js.trim (opt_else (body_title body) "") in
  let a := Js.trim (opt_else (body_author body) "") in
  let d := Js.trim (opt_else (body_description body) "") in
  if len_between 1 200 t
     && len_between 1 100 a
     && len_between 10 2000 d
     && match body_genre body with Some g => str_in g GENRES | None => false end
     && match body_publishedYear body with
        | Some y => (1000 <=? y) && (y <=? currentYear)
        | None => false
        end
  then Some (mkBookBody (Some t) (Some a) (Some d) (body_genre body)
               (body_publishedYear body) (body_isbn body) (body_coverImage body)
               (body_pageCount body) (body_language body) (body_publisher body)
               (body_tags body) (body_addedBy body) (body_isActive body))
  else None.

(** *** models/Book.ts: casting and path validators *)

(** The schema's [trim: true] setters. *)
Definition cast_body (body : BookBody) : BookBody :=
  mkBookBody (option_map Js.trim (body_title body))
    (option_map Js.trim (body_author body))
    (option_map Js.trim (body_description body))
    (option_map Js.trim (body_genre body))
    (body_publishedYear body)
    (option_map Js.trim (body_isbn body))
    (body_coverImage body)
    (body_pageCount body)
    (option_map Js.trim (body_language body))
    (option_map Js.trim (body_publisher body))
    (option_map (map Js.trim) (body_tags body))
    (body_addedBy body)
    (body_isActive body).

(** The validators of the paths a body sets. *)
Definition paths_valid (body : BookBody) : bool :=
  opt_all (len_between 1 200) (body_title body)
  && opt_all (len_between 1 100) (body_author body)
  && opt_all (len_between 10 2000) (body_description body)
  && opt_all (fun g => str_in g GENRES) (body_genre body)
  && opt_all (fun y => (1000 <=? y) && (y <=? currentYear)) (body_publishedYear body)
  && opt_all (fun i => (i =? "")%string || isbn_match i) (body_isbn body)
  && opt_all (fun p => 1 <=? p) (body_pageCount body)
  && opt_all (len_between 0 100) (body_publisher body)
  && opt_all (forallb (len_between 0 30)) (body_tags body).

(** [$set] of every path the body carries. *)
Definition apply_body (body : BookBody) (b : Book) : Book :=
  mkBook (book_id b)
    (opt_else (body_title body) (title b))
    (opt_else (body_author body) (author b))
    (opt_else (body_description body) (description b))
    (opt_else (body_genre body) (genre b))
    (opt_else (body_publishedYear body) (publishedYear b))
    (match body_isbn body with Some i => Some i | None => isbn b end)
    (opt_else (body_coverImage body) (coverImage b))
    (match body_pageCount body with Some p => Some p | None => pageCount b end)
    (opt_else (body_language body) (language b))
    (match body_publisher body with Some p => Some p | None => publisher b end)
    (opt_else (body_addedBy body) (addedBy b))
    (opt_else (body_tags body) (tags b))
    (opt_else (body_isActive body) (book_isActive b))
    (book_createdAt b).

(** Update of the first document with the given [_id]. *)
Fixpoint update_book (id : ObjectId) (f : Book -> Book) (l : list Book) : list Book :=
  match l with
  | [] => []
  | b :: l' => if oid_eqb (book_id b) id then f b :: l' else b :: update_book id f l'
  end.

Fixpoint update_review (id : ObjectId) (f : Review -> Review) (l : list Review)
  : list Review :=
  match l with
  | [] => []
  | r :: l' => if oid_eqb (review_id r) id then f r :: l' else r :: update_review id f l'
  end.

(** *** POST /api/books (after [auth] and [validateBook]) *)

(** [new Book({ ...req.body, addedBy: req.user._id })] with the schema
    defaults; [None] when a required path is missing. *)
Definition new_Book (new_id : ObjectId) (now : Date) (body : BookBody)
    (owner : ObjectId) : option Book :=
  match body_title body, body_author body, body_description body,
        body_genre body, body_publishedYear body with
  | Some t, Some a, Some d, Some g, Some y =>
      Some (mkBook new_id t a d g y (body_isbn body)
              (opt_else (body_coverImage body) "")
              (body_pageCount body)
              (opt_else (body_language body) "English")
              (body_publisher body)
              owner
              (opt_else (body_tags body) [])
              (opt_else (body_isActive body) true)
              now)
  | _, _, _, _, _ => None
  end.

Definition createBook (st : Store) (user : User) (body : BookBody)
    (new_id : ObjectId) (now : Date) : Store * Response BookDoc :=
  let body' := cast_body body in
  match new_Book new_id now body' (user_id user) with
  | Some b =>
      if paths_valid body'
      then (mkStore (users st) (books st ++ [b]) (reviews st),
            Json 201 (mkBookDoc b None))
      else (st, Raised ValidationError)
  | None => (st, Raised ValidationError)
  end.

(** *** PUT /api/books/:id (after [auth] and [validateBook]) *)

Definition updateBook (st : Store) (user : User) (id : ObjectId) (body : BookBody)
  : Store * Response BookDoc :=
  match Book_findOne_active st id with
  | None => (st, Failure 404 "Book not found")
  | Some book =>
      if negb (addedBy book =? user_id user)%string
      then (st, Failure 403 "Not authorized to update this book")
      else
        (* Book.findByIdAndUpdate(id, req.body, { new: true, runValidators: true }) *)
        let body' := cast_body body in
        if paths_valid body'
        then
          let st' := mkStore (users st) (update_book id (apply_body body') (books st))
                       (reviews st) in
          match Book_findById st' id with
          | Some b' => (st', Json 200 (mkBookDoc b' None))
          | None => (st', Raised TypeError)     (* book!._id on null *)
          end
        else (st, Raised ValidationError)
  end.

Definition PUT_book (st : Store) (authorization : option string) (id : ObjectId)
    (body : BookBody) : Store * Response BookDoc :=
  match auth st authorization with
  | Reject status message => (st, Failure status message)
  | Next user =>
      match validateBook body with
      | None => (st, Failure 400 "Validation failed")
      | Some body' => updateBook st user id body'
      end
  end.

(** *** DELETE /api/books/:id (after [auth]) *)

Definition deleteBook (st : Store) (user : User) (id : ObjectId)
  : Store * Response unit :=
  match Book_findOne_active st id with
  | None => (st, Failure 404 "Book not found")
  | Some book =>
      if negb (addedBy book =? user_id user)%string
      then (st, Failure 403 "Not authorized to delete this book")
      else
        let deactivate (b : Book) :=
          apply_body (mkBookBody None None None None None None None None None None
                        None None (Some false)) b in
        (mkStore (users st)
           (update_book id deactivate (books st))
           (* Review.updateMany({ bookId: id }, { isActive: false }) *)
           (map (fun r =>
                   if oid_eqb (bookId r) id
                   then mkReview (review_id r) (bookId r) (userId r) (rating r)
                          (reviewText r) (review_title r) (likes r) false
                          (editedAt r) (review_createdAt r)
                   else r)
                (reviews st)),
         Json 200 tt)
  end.

(** ** routes/reviewRoutes.ts *)

(** [req.body] of POST and PUT /api/reviews. *)
Record ReviewBody : Type := mkReviewBody {
  rb_bookId : ObjectId;
  rb_rating : Z;
  rb_reviewText : string;
  rb_title : option string
}.

(** validateReview: [None] is 400 'Validation failed'; the text and the
    title come out trimmed. *)
Definition validateReview (body : ReviewBody) : option ReviewBody :=
  let text := Js.trim (rb_reviewText body) in
  let ttl := option_map Js.trim (rb_title body) in
  if (1 <=? rb_rating body) && (rb_rating body <=? 5)
     && len_between 10 2000 text
     && opt_all (len_between 0 100) ttl
  then Some (mkReviewBody (rb_bookId body) (rb_rating body) text ttl)
  else None.

(** The validators of the Review schema. *)
Definition review_valid (r : Review) : bool :=
  (1 <=? rating r) && (rating r <=? 5)
  && len_between 10 2000 (reviewText r)
  && opt_all (len_between 0 100) (review_title r).

(** The unique indexes of the reviews collection: [_id], and
    [{ bookId: 1, userId: 1 }, { unique: true }], which carries no partial
    filter and so covers inactive documents as well. *)
Definition same_pair (r r' : Review) : bool :=
  oid_eqb (bookId r') (bookId r) && oid_eqb (userId r') (userId r).

Definition index_conflict (st : Store) (r : Review) : bool :=
  existsb (fun r' => oid_eqb (review_id r') (review_id r) || same_pair r r')
          (reviews st).

(** [review.save()] of a new document. *)
Definition Review_insert (st : Store) (r : Review) : Error + Store :=
  if negb (review_valid r) then inl ValidationError
  else if index_conflict st r then inl DuplicateKey
  else inr (mkStore (users st) (books st) (reviews st ++ [r])).

(** [Review.findOne({ bookId, userId, isActive: true })]. *)
Definition Review_findOne_active_pair (st : Store) (book user : ObjectId)
  : option Review :=
  find (fun r => oid_eqb (bookId r) book && oid_eqb (userId r) user && review_isActive r)
       (reviews st).

(** *** POST /api/reviews (after [auth] and [validateReview]) *)
Definition createReview (st : Store) (user : User) (body : ReviewBody)
    (new_id : ObjectId) (now : Date) : Store * Response Review :=
  match Book_findOne_active st (rb_bookId body) with
  | None => (st, Failure 404 "Book not found")
  | Some _ =>
      match Review_findOne_active_pair st (rb_bookId body) (user_id user) with
      | Some _ => (st, Failure 400 "You have already reviewed this book")
      | None =>
          (* the pre-save hook stamps editedAt: both paths are modified *)
          let review :=
            mkReview new_id (rb_bookId body) (user_id user) (rb_rating body)
              (Js.trim (rb_reviewText body)) (option_map Js.trim (rb_title body))
              [] true (Some now) now in
          match Review_insert st review with
          | inr st' => (st', Json 201 review)
          | inl e => (st, Raised e)
          end
      end
  end.

Definition POST_review (st : Store) (authorization : option string)
    (body : ReviewBody) (new_id : ObjectId) (now : Date) : Store * Response Review :=
  match auth st authorization with
  | Reject status message => (st, Failure status message)
  | Next user =>
      match validateReview body with
      | None => (st, Failure 400 "Validation failed")
      | Some body' => createReview st user body' new_id now
      end
  end.

(** *** PUT /api/reviews/:id (after [auth] and [validateReview]) *)
Definition updateReview (st : Store) (user : User) (id : ObjectId)
    (body : ReviewBody) (now : Date) : Store * Response Review :=
  match Review_findOne_active st id with
  | None => (st, Failure 404 "Review not found")
  | Some review =>
      if negb (userId review =? user_id user)%string
      then (st, Failure 403 "Not authorized to update this review")
      else
        let text := Js.trim (rb_reviewText body) in
        let modified :=
          negb (rating review =? rb_rating body)
          || negb (reviewText review =? text)%string in
        let review' :=
          mkReview (review_id review) (bookId review) (userId review)
            (rb_rating body) text
            (match rb_title body with
             | Some t => Some (Js.trim t)
             | None => review_title review
             end)
            (likes review) (review_isActive review)
            (if modified then Some now else editedAt review)
            (review_createdAt review) in
        if review_valid review'
        then (mkStore (users st) (books st)
                (update_review id (fun _ => review') (reviews st)),
              Json 200 review')
        else (st, Raised ValidationError)
  end.

(** *** DELETE /api/reviews/:id (after [auth]) *)
Definition deleteReview (st : Store) (user : User) (id : ObjectId)
  : Store * Response unit :=
  match Review_findOne_active st id with
  | None => (st, Failure 404 "Review not found")
  | Some review =>
      if negb (userId review =? user_id user)%string
      then (st, Failure 403 "Not authorized to delete this review")
      else
        let review' :=
          mkReview (review_id review) (bookId review) (userId review)
            (rating review) (reviewText review) (review_title review)
            (likes review) false (editedAt review) (review_createdAt review) in
        (mkStore (users st) (books st)
           (update_review id (fun _ => review') (reviews st)),
         Json 200 tt)
  end.

(** *** POST /api/reviews/:id/like (after [auth]) *)

Record LikeResponse : Type := mkLikeResponse {
  resp_likes : Z;
  resp_isLiked : bool
}.

(** The body of the handler on the array [review.likes]. *)
Definition toggle (uid : ObjectId) (l : list ObjectId) : list ObjectId :=
  let likeIndex := Js.indexOf oid_eqb l uid in
  if -1 <? likeIndex
  then Js.splice1 (Z.to_nat likeIndex) l
  else Js.push l uid.

Definition toggleLike (st : Store) (user : User) (id : ObjectId)
  : Store * Response LikeResponse :=
  match Review_findOne_active st id with
  | None => (st, Failure 404 "Review not found")
  | Some review =>
      let likeIndex := Js.indexOf oid_eqb (likes review) (user_id user) in
      let review' :=
        mkReview (review_id review) (bookId review) (userId review)
          (rating review) (reviewText review) (review_title review)
          (toggle (user_id user) (likes review))
          (review_isActive review) (editedAt review) (review_createdAt review) in
      (mkStore (users st) (books st)
         (update_review id (fun _ => review') (reviews st)),
       Json 200 (mkLikeResponse (likeCount review') (likeIndex =? -1)))
  end.

(** *** GET /api/reviews/book/:bookId: the statistics block *)

(** [$match: { bookId, isActive: true }] then [$avg], rounded to a tenth;
    0 when no document matches. *)
Definition review_statistics (st : Store) (book : ObjectId) : Q :=
  match filter (fun r => oid_eqb (bookId r) book && review_isActive r) (reviews st) with
  | [] => 0%Q
  | rs =>
      let sum := fold_left (fun acc r => acc + rating r) rs 0 in
      (inject_Z
         (Js.Math_round ((inject_Z sum / inject_Z (Z.of_nat (List.length rs))) * 10)%Q)
       / 10)%Q
  end.

(** ** Request scripts *)

(** A write request that has passed [auth] (and its validation chain), with
    the identifier and the time the server draws for it. *)
Inductive Op : Type :=
| OpCreateBook (user : User) (body : BookBody) (new_id : ObjectId) (now : Date)
| OpUpdateBook (user : User) (id : ObjectId) (body : BookBody)
| OpDeleteBook (user : User) (id : ObjectId)
| OpCreateReview (user : User) (body : ReviewBody) (new_id : ObjectId) (now : Date)
| OpUpdateReview (user : User) (id : ObjectId) (body : ReviewBody) (now : Date)
| OpDeleteReview (user : User) (id : ObjectId)
| OpToggleLike (user : User) (id : ObjectId).

Definition step (st : Store) (op : Op) : Store :=
  match op with
  | OpCreateBook user body new_id now => fst (createBook st user body new_id now)
  | OpUpdateBook user id body => fst (updateBook st user id body)
  | OpDeleteBook user id => fst (deleteBook st user id)
  | OpCreateReview user body new_id now => fst (createReview st user body new_id now)
  | OpUpdateReview user id body now => fst (updateReview st user id body now)
  | OpDeleteReview user id => fst (deleteReview st user id)
  | OpToggleLike user id => fst (toggleLike st user id)
  end.

Definition run (st : Store) (ops : list Op) : Store := fold_left step ops st.

End Platform.

(** ** What the indexes and the like handler maintain *)

Definition pair_of (r : Review) : ObjectId * ObjectId := (bookId r, userId r).

(** The [_id] index, the [{ bookId, userId }] index, and liker arrays
    without repetition (a new review starts with none and the like handler
    adds a user only when absent). *)
Record store_ok (st : Store) : Prop := mkStoreOk {
  ok_ids : NoDup (map review_id (reviews st));
  ok_pairs : NoDup (map pair_of (reviews st));
  ok_likes : Forall (fun r => NoDup (likes r)) (reviews st)
}.

(** Alice's review as stored by the script below. *)
Definition stored_alice_review : Review :=
  mkReview "r1" "b1" "u1" 5 "A wonderful book." None [] true (Some 200) 200.

(** The same request with another [minRating]. *)
Definition with_minRating (q : BooksQuery) (m : option Q) : BooksQuery :=
  mkBooksQuery (q_page q) (q_limit q) (q_search q) (q_genre q) (q_sortBy q)
    (q_sortOrder q) (q_minYear q) (q_maxYear q) m (q_author q).

(** The identity of each stored review: its [_id] and its pair, in
    collection order. *)
Definition keys (st : Store) : list (ObjectId * (ObjectId * ObjectId)) :=
  map (fun r => (review_id r, pair_of r)) (reviews st).

(** ** A small catalogue used in the examples *)

Module Demo.

Definition alice : User := mkUser "u1" "Alice" "alice@x.com" true.
Definition bob : User := mkUser "u2" "Bob" "bob@x.com" true.

Definition dune : Book :=
  mkBook "b1" "Dune" "Frank Herbert" "A desert planet and its spice."
    "Sci-Fi" 1965 None "" None "English" None "u1" ["classic"] true 200.

Definition emma : Book :=
  mkBook "b2" "Emma" "Jane Austen" "A match-maker in Highbury."
    "Romance" 1815 None "" None "English" None "u1" ["classic"] true 100.

Definition empty : Store := mkStore [alice; bob] [dune] [].

Definition jwt (token : string) : JwtResult :=
  if (token =? "token-alice")%string then Decoded "u1"
  else if (token =? "token-bob")%string then Decoded "u2"
  else JsonWebTokenError.

(** No search text is used in the examples. *)
Definition regex (pattern subject : string) : bool := false.
Definition isbn (s : string) : bool := false.
Definition year : Z := 2025.

Definition alice_review : ReviewBody :=
  mkReviewBody "b1" 5 "A wonderful book." None.
Definition bob_review : ReviewBody :=
  mkReviewBody "b1" 1 "Not my cup of tea." None.
Definition bob_again : ReviewBody :=
  mkReviewBody "b1" 4 "Better on a second reading." None.

(** Alice and Bob review Dune, then Bob deletes his review. *)
Definition script : list Op :=
  [ OpCreateReview alice alice_review "r1" 200;
    OpCreateReview bob bob_review "r2" 300;
    OpDeleteReview bob "r2" ].

Definition after_delete : Store := run isbn year empty script.

(** A catalogue of two rated books, for the listing. *)
Definition emma_review : ReviewBody :=
  mkReviewBody "b2" 1 "I could not finish it." None.

Definition two_books : Store :=
  run isbn year (mkStore [alice; bob] [dune; emma] [])
    [ OpCreateReview alice alice_review "r1" 300;
      OpCreateReview bob emma_review "r2" 400 ].

Definition by_rating (o : SortOrder) (m : option Q) : BooksQuery :=
  mkBooksQuery 1 2 None None SortAverageRating o None None m None.

(** Dune soft-deleted by its owner, Emma still active. *)
Definition dune_deleted : Store :=
  run isbn year (mkStore [alice; bob] [dune; emma] []) [ OpDeleteBook alice "b1" ].

Definition dune_absent : Store := mkStore [alice; bob] [emma] [].

(** A body that passes validateBook and names another owner. *)
Definition give_away : BookBody :=
  mkBookBody (Some "Dune") (Some "Frank Herbert")
    (Some "A desert planet and its spice.") (Some "Sci-Fi") (Some 1965)
    None None None None None None (Some "u2") None.

End Demo.

(** ** Further routes *)


(** *** GET /api/reviews/book/:bookId (no [auth]) *)

(** [sortBy] names a path of the review; the model covers createdAt (the
    default) and rating. *)
Inductive ReviewSortKey : Type := ByCreatedAt | ByRating.

Record ReviewsQuery : Type := mkReviewsQuery {
  rq_page : Z;                  (* parseInt(page), default 1 *)
  rq_limit : Z;                 (* parseInt(limit), default 10 *)
  rq_sortBy : ReviewSortKey;
  rq_sortOrder : SortOrder
}.

Record ReviewPagination : Type := mkReviewPagination {
  rp_currentPage : Z;
  rp_totalPages : Z;
  rp_totalReviews : Z;
  rp_hasNextPage : bool;
  rp_hasPrevPage : bool
}.

Record ReviewStatistics : Type := mkReviewStatistics {
  stat_averageRating : Q;
  stat_totalReviews : Z;
  stat_ratingDistribution : RatingDistribution
}.

Record BookReviewsResponse : Type := mkBookReviewsResponse {
  brr_reviews : list PopReview;
  brr_pagination : ReviewPagination;
  brr_statistics : ReviewStatistics
}.

Definition review_key_le (k : ReviewSortKey) (x y : Review) : bool :=
  match k with
  | ByCreatedAt => review_createdAt x <=? review_createdAt y
  | ByRating => rating x <=? rating y
  end.

(** [sort[sortBy] = sortOrder === 'desc' ? -1 : 1]. *)
Definition reviews_order (q : ReviewsQuery) (x y : Review) : bool :=
  match rq_sortOrder q with
  | Desc => review_key_le (rq_sortBy q) y x
  | Asc => review_key_le (rq_sortBy q) x y
  end.

(** [{ bookId, isActive: true }]. *)
Definition active_reviews_of_book (st : Store) (book : ObjectId) : list Review :=
  filter (fun r => oid_eqb (bookId r) book && review_isActive r) (reviews st).

Definition review_pagination (page limit total : Z) : ReviewPagination :=
  let pages := Js.Math_ceil (inject_Z total / inject_Z limit)%Q in
  mkReviewPagination page pages total (page <? pages) (1 <? page).

Definition listBookReviews (st : Store) (book : ObjectId) (q : ReviewsQuery)
  : Response BookReviewsResponse :=
  let matched := active_reviews_of_book st book in
  let skip := (rq_page q - 1) * rq_limit q in
  let page :=
    map (populate_userId st)
      (firstn (Z.to_nat (rq_limit q))
         (skipn (Z.to_nat skip) (sort_by (reviews_order q) matched))) in
  let totalReviews := Z.of_nat (List.length matched) in
  (* the $group stage pushes every matched rating; forEach counts them *)
  let dist :=
    fold_left (fun d r => increment (rating r) d) matched emptyDistribution in
  Json 200
    (mkBookReviewsResponse page
       (review_pagination (rq_page q) (rq_limit q) totalReviews)
       (mkReviewStatistics (review_statistics st book) totalReviews dist)).

(** *** GET /api/reviews/user/:userId and GET /api/reviews/recent *)

(** A review with [bookId] and [userId] populated. *)
Record FullReview : Type := mkFullReview {
  fr_review : Review;
  fr_book : option Book;
  fr_user : option User
}.

Definition populate_both (st : Store) (r : Review) : FullReview :=
  mkFullReview r (Book_findById st (bookId r)) (User_findById st (userId r)).

Definition newest_first (x y : Review) : bool :=
  review_createdAt y <=? review_createdAt x.

Record UserReviewsResponse : Type := mkUserReviewsResponse {
  urr_reviews : list FullReview;
  urr_pagination : ReviewPagination
}.

Definition listUserReviews (st : Store) (user : ObjectId) (page limit : Z)
  : Response UserReviewsResponse :=
  let matched :=
    filter (fun r => oid_eqb (userId r) user && review_isActive r) (reviews st) in
  let skip := (page - 1) * limit in
  Json 200
    (mkUserReviewsResponse
       (map (populate_both st)
          (firstn (Z.to_nat limit)
             (skipn (Z.to_nat skip) (sort_by newest_first matched))))
       (review_pagination page limit (Z.of_nat (List.length matched)))).

Definition recentReviews (st : Store) (limit : Z) : Response (list FullReview) :=
  Json 200
    (map (populate_both st)
       (firstn (Z.to_nat limit)
          (sort_by newest_first (filter review_isActive (reviews st))))).

(** *** routes/userRoutes.ts: GET /api/users/:id/profile (after
    [validateObjectId]) *)

(** The user as projected by [select('-email -password')]. *)
Record PublicUser : Type := mkPublicUser {
  pu_id : ObjectId;
  pu_name : string;
  pu_isActive : bool
}.

Definition public_user (u : User) : PublicUser :=
  mkPublicUser (user_id u) (user_name u) (user_isActive u).

Record ProfileResponse : Type := mkProfileResponse {
  pf_user : PublicUser;
  pf_books : list Book;
  pf_reviews : list (Review * option Book);
  pf_booksCount : Z;
  pf_reviewsCount : Z
}.

(** [{ addedBy: id, isActive: true }] and [{ userId: id, isActive: true }]. *)
Definition active_books_of (st : Store) (id : ObjectId) : list Book :=
  filter (fun b => oid_eqb (addedBy b) id && book_isActive b) (books st).

Definition active_reviews_by (st : Store) (id : ObjectId) : list Review :=
  filter (fun r => oid_eqb (userId r) id && review_isActive r) (reviews st).

Definition getProfile (st : Store) (id : ObjectId) : Response ProfileResponse :=
  match find (fun u => oid_eqb (user_id u) id && user_isActive u) (users st) with
  | None => Failure 404 "User not found"
  | Some u =>
      Json 200
        (mkProfileResponse (public_user u)
           (* populate books: match isActive, sort createdAt -1, limit 6 *)
           (firstn 6
              (sort_by (fun x y => book_createdAt y <=? book_createdAt x)
                 (active_books_of st (user_id u))))
           (* populate reviews likewise, each with its bookId populated *)
           (map (fun r => (r, Book_findById st (bookId r)))
              (firstn 6 (sort_by newest_first (active_reviews_by st (user_id u)))))
           (Z.of_nat (List.length (active_books_of st id)))
           (Z.of_nat (List.length (active_reviews_by st id))))
  end.

(** *** GET /api/users/leaderboard *)

Inductive BoardType : Type := BoardBooks | BoardReviews | BoardOther.

Record BoardEntry : Type := mkBoardEntry {
  be_id : ObjectId;             (* the group key *)
  be_user : User;               (* the joined user document *)
  be_count : Z
}.

(** [$group: { _id: key, count: { $sum: 1 } }]: one group per distinct key.
    The store fixes no order for the groups; the model lists them as
    [nodup] leaves the keys. *)
Definition group_count (keys : list ObjectId) : list (ObjectId * Z) :=
  map (fun k => (k, Z.of_nat (count_occ string_dec keys k)))
      (nodup string_dec keys).

(** [$lookup] into users on [_id], [$unwind], [$match user.isActive]. *)
Definition join_users (st : Store) (groups : list (ObjectId * Z)) : list BoardEntry :=
  flat_map
    (fun g =>
       map (fun u => mkBoardEntry (fst g) u (snd g))
         (filter (fun u => oid_eqb (user_id u) (fst g)) (users st)))
    groups.

Definition leaderboard (st : Store) (type : BoardType) (limit : Z) : list BoardEntry :=
  let groups :=
    match type with
    | BoardBooks => group_count (map addedBy (filter book_isActive (books st)))
    | BoardReviews => group_count (map userId (filter review_isActive (reviews st)))
    | BoardOther => []
    end in
  match type with
  | BoardOther => []
  | _ =>
      firstn (Z.to_nat limit)
        (sort_by (fun x y => be_count y <=? be_count x)
           (filter (fun e => user_isActive (be_user e)) (join_users st groups)))
  end.

(** *** GET /api/users/search *)

Section Search.

Variable regex_i : string -> string -> bool.

(** The [bio] path of a user document, which the [User] record above does
    not carry. *)
Variable user_bio : User -> string.


End Search.

(** ** Frontend: components/Reviews/RatingChart.tsx *)

Module Ui.

(** [Math.max(...Object.values(ratingDistribution))]; the distribution
    always holds its five counters, and the value for an object without
    keys (-Infinity) is not modelled. *)
Definition maxCount (d : RatingDistribution) : Z :=
  match map snd d with
  | [] => 0
  | c :: cs => fold_left Z.max cs c
  end.

(** [getBarWidth]. *)
Definition getBarWidth (d : RatingDistribution) (count : Z) : Q :=
  if maxCount d =? 0 then 0%Q
  else ((inject_Z count / inject_Z (maxCount d)) * 100)%Q.


End Ui.

(** ** Auxiliary notions for the properties *)


Section OptionalPaths.

Variable isbn_match : string -> bool.


End OptionalPaths.

(** The counter a rating distribution holds for a star value. *)
Definition counter (k : Z) (d : RatingDistribution) : option Z :=
  option_map snd (find (fun kv => fst kv =? k) d).

(** How many of the given ratings equal [k]. *)
Definition count_rating (k : Z) (ratings : list Z) : Z :=
  Z.of_nat (List.length (filter (fun x => x =? k) ratings)).

Definition sum_ratings (ratings : list Z) : Z := fold_right Z.add 0 ratings.

(** ** More sample data *)

Module Sample.

(** The two-book catalogue of [Demo], one title per page. *)
Definition by_title (p : Z) : BooksQuery :=
  mkBooksQuery p 1 None None SortTitle Asc None None None None.

Definition dune_doc : BookDoc :=
  mkBookDoc Demo.dune (Some (populate_reviews Demo.two_books Demo.dune)).

Definition carol : User := mkUser "u3" "Carol" "carol@x.com" false.

(** Alice and Bob active, Carol deactivated; Carol owns a third book. *)
Definition persuasion : Book :=
  mkBook "b3" "Persuasion" "Jane Austen" "A second chance at Kellynch."
    "Romance" 1817 None "" None "English" None "u3" [] true 300.

Definition three_users : Store :=
  mkStore [Demo.alice; Demo.bob; carol] [Demo.dune; Demo.emma; persuasion]
    (reviews Demo.two_books).

End Sample.

(** * Properties *)

(** ** Ratings on the read paths *)

Lemma demo_after_delete_reviews :
  map (fun r => (review_id r, rating r, review_isActive r))
      (reviews Demo.after_delete)
  = [("r1", 5, true); ("r2", 1, false)].
Proof. vm_compute. reflexivity. Qed.

(** C1. On the store reached when Alice rates Dune 5, Bob rates it 1 and
    Bob then deletes his review, the single-book fetch reports an
    averageRating of 3 and a reviewCount of 2: the soft-deleted review is
    counted. The statistics block of the review listing, which matches on
    [isActive], reports 5 for the same book. *)
Theorem averageRating_counts_soft_deleted_reviews :
  exists resp,
    getBook Demo.after_delete "b1" (Some Demo.alice) = Json 200 resp
    /\ (averageRating (resp_book resp) == 3)%Q
    /\ reviewCount (resp_book resp) = 2
    /\ (review_statistics Demo.after_delete "b1" == 5)%Q.
Proof.
  eexists. split; [vm_compute; reflexivity|].
  repeat split; vm_compute; reflexivity.
Qed.

(** The same value on the listing. *)
Lemma averageRating_on_listing :
  exists resp,
    listBooks Demo.regex Demo.after_delete
      (mkBooksQuery 1 12 None None SortCreatedAt Desc None None None None)
      Demo.alice = Json 200 resp
    /\ map (fun d => Qred (averageRating d)) (resp_books resp) = [3%Q].
Proof.
  eexists. split; vm_compute; reflexivity.
Qed.

(** A book returned without its reviews populated (creation, update, the
    profile routes) reports 0. *)
Lemma averageRating_unpopulated (b : Book) :
  averageRating (mkBookDoc b None) = 0%Q /\ reviewCount (mkBookDoc b None) = 0.
Proof. split; reflexivity. Qed.

(** ** Creating a review *)

(** C2. After Bob's review of Dune has been soft-deleted, his next
    createReview for Dune passes the active-review check, is refused by the
    unique index on insert, and leaves the handler as a raised duplicate-key
    error; nothing is stored. *)
Theorem createReview_after_soft_delete_raises :
  Review_findOne_active_pair Demo.after_delete "b1" "u2" = None
  /\ createReview Demo.after_delete Demo.bob Demo.bob_again "r3" 400
     = (Demo.after_delete, Raised DuplicateKey)
  /\ POST_review Demo.jwt Demo.after_delete (Some "Bearer token-bob")
       Demo.bob_again "r3" 400
     = (Demo.after_delete, Raised DuplicateKey).
Proof. repeat split; vm_compute; reflexivity. Qed.

(** The 400 answer of the handler is tied to an active review of the pair. *)
Lemma createReview_already_reviewed_iff (st : Store) (user : User)
    (body : ReviewBody) (new_id : ObjectId) (now : Date) :
  snd (createReview st user body new_id now)
    = Failure 400 "You have already reviewed this book"
  <-> Book_findOne_active st (rb_bookId body) <> None
      /\ exists r, In r (reviews st)
                   /\ bookId r = rb_bookId body /\ userId r = user_id user
                   /\ review_isActive r = true.
Proof.
  unfold createReview.
  destruct (Book_findOne_active st (rb_bookId body)) as [b|] eqn:Hb.
  - destruct (Review_findOne_active_pair st (rb_bookId body) (user_id user))
      as [r|] eqn:Hr.
    + simpl. split; [intros _|reflexivity].
      split; [discriminate|].
      unfold Review_findOne_active_pair in Hr.
      apply find_some in Hr. destruct Hr as [Hin Hp].
      apply andb_true_iff in Hp. destruct Hp as [Hp Hact].
      apply andb_true_iff in Hp. destruct Hp as [H1 H2].
      apply String.eqb_eq in H1. apply String.eqb_eq in H2.
      exists r. auto.
    + split.
      * destruct (Review_insert st _); simpl; discriminate.
      * intros [_ [r [Hin [H1 [H2 H3]]]]]. exfalso.
        unfold Review_findOne_active_pair in Hr.
        pose proof (find_none _ _ Hr r Hin) as Hn. simpl in Hn.
        unfold oid_eqb in Hn. rewrite H1, H2, H3 in Hn.
        rewrite !String.eqb_refl in Hn. discriminate.
  - simpl. split; [discriminate|]. intros [H _]. congruence.
Qed.

(** ** Ownership of a book *)

(** C3. Alice, the owner of Dune, sends a PUT whose body passes validateBook
    and carries [addedBy: "u2"]: the update is accepted and the stored book
    is now owned by Bob. *)
Theorem updateBook_overwrites_owner :
  option_map addedBy (Book_findById Demo.empty "b1") = Some "u1"
  /\ exists st' d,
      PUT_book Demo.jwt Demo.isbn Demo.year Demo.empty
        (Some "Bearer token-alice") "b1" Demo.give_away = (st', Json 200 d)
      /\ option_map addedBy (Book_findById st' "b1") = Some "u2".
Proof.
  split; [reflexivity|].
  do 2 eexists. split; vm_compute; reflexivity.
Qed.

(** POST sets the owner from the session whatever the body carries. *)
Lemma createBook_owner_is_caller (isbn_match : string -> bool) (currentYear : Z)
    (st st' : Store) (user : User) (body : BookBody) (new_id : ObjectId)
    (now : Date) (d : BookDoc) :
  createBook isbn_match currentYear st user body new_id now = (st', Json 201 d) ->
  addedBy (doc d) = user_id user.
Proof.
  unfold createBook, new_Book. 
  destruct (body_title (cast_body body)), (body_author (cast_body body)),
    (body_description (cast_body body)), (body_genre (cast_body body)),
    (body_publishedYear (cast_body body)); try discriminate.
  destruct (paths_valid _ _ _); [|discriminate].
  intros H. inversion H. reflexivity.
Qed.

(** ** Credentials on the catalogue reads *)

(** C4. A request to GET /api/books or GET /api/books/:id without an
    Authorization header is answered 401 by the auth middleware, whatever
    the store and the query. *)
Theorem catalogue_reads_require_token
    (jwt_verify : string -> JwtResult) (regex_i : string -> string -> bool)
    (st : Store) (q : BooksQuery) (id : ObjectId) :
  GET_books jwt_verify regex_i st None q
    = Failure 401 "Access denied. No token provided."
  /\ GET_book jwt_verify st None id
    = Failure 401 "Access denied. No token provided.".
Proof. split; reflexivity. Qed.

(** A token that does not verify is answered 401 as well. *)
Lemma catalogue_reads_reject_bad_token :
  GET_book Demo.jwt Demo.empty (Some "Bearer forged") "b1"
  = Failure 401 "Invalid token.".
Proof. vm_compute. reflexivity. Qed.

(** ** Soft-deleted documents on the read paths *)

(** C5. With Dune soft-deleted, the similar-books route answers 200 with the
    books similar to it, while on the store that never held Dune it answers
    404; the single-book route answers 404 on both. *)
Theorem similarBooks_reads_soft_deleted_book :
  option_map book_isActive (Book_findById Demo.dune_deleted "b1") = Some false
  /\ (exists ds, similarBooks Demo.dune_deleted "b1" = Json 200 ds
                 /\ map (fun d => book_id (doc d)) ds = ["b2"])
  /\ similarBooks Demo.dune_absent "b1" = Failure 404 "Book not found"
  /\ getBook Demo.dune_deleted "b1" None = Failure 404 "Book not found"
  /\ getBook Demo.dune_absent "b1" None = Failure 404 "Book not found".
Proof.
  split; [vm_compute; reflexivity|].
  split; [eexists; split; vm_compute; reflexivity|].
  repeat split; vm_compute; reflexivity.
Qed.

(** GET /api/auth/me lists the caller's soft-deleted book among her books;
    the public profile counts active books only. *)
Lemma getMe_lists_soft_deleted_book :
  (exists me, getMe Demo.dune_deleted Demo.alice = Json 200 me
              /\ map (fun b => (book_id b, book_isActive b)) (me_books me)
                 = [("b1", false); ("b2", true)])
  /\ (exists me, getMe Demo.dune_absent Demo.alice = Json 200 me
                 /\ map (fun b => (book_id b, book_isActive b)) (me_books me)
                    = [("b2", true)]).
Proof.
  split; eexists; (split; [reflexivity|vm_compute; reflexivity]).
Qed.

(** ** The listing: rating filter, rating sort, pagination *)

Section Listing.

Variable regex_i : string -> string -> bool.

Lemma Js_insert_perm {A : Type} (cmp : A -> A -> Q) (x : A) (l : list A) :
  Permutation (Js.insert cmp x l) (x :: l).
Proof.
  induction l as [|y l IH]; simpl.
  - apply Permutation_refl.
  - destruct (Qle_bool (cmp x y) 0).
    + apply Permutation_refl.
    + apply perm_trans with (y :: x :: l).
      * apply perm_skip, IH.
      * apply perm_swap.
Qed.

Lemma Js_sort_perm {A : Type} (cmp : A -> A -> Q) (l : list A) :
  Permutation (Js.sort cmp l) l.
Proof.
  induction l as [|x l IH]; simpl.
  - apply perm_nil.
  - apply perm_trans with (x :: Js.sort cmp l).
    + apply Js_insert_perm.
    + apply perm_skip, IH.
Qed.

Lemma rating_sort_perm (q : BooksQuery) (l : list BookDoc) :
  Permutation (rating_sort q l) l.
Proof.
  unfold rating_sort.
  destruct (q_sortBy q); try apply Permutation_refl.
  apply Js_sort_perm.
Qed.

(** The store-level fetch does not look at [minRating]. *)
Lemma fetch_page_ignores_minRating (st : Store) (q : BooksQuery) (m : option Q) :
  fetch_page regex_i st (with_minRating q m) = fetch_page regex_i st q.
Proof. reflexivity. Qed.

Lemma count_books_ignores_minRating (st : Store) (q : BooksQuery) (m : option Q) :
  count_books regex_i st (with_minRating q m) = count_books regex_i st q.
Proof. reflexivity. Qed.

Lemma fetch_page_length (st : Store) (q : BooksQuery) :
  0 <= q_limit q ->
  Z.of_nat (List.length (fetch_page regex_i st q)) <= q_limit q.
Proof.
  intros Hl. unfold fetch_page.
  rewrite length_map, length_firstn. lia.
Qed.

(** [Math.ceil(total / limit)] for a positive [limit]. *)
Lemma Math_ceil_div (total limit : Z) :
  1 <= limit ->
  let pages := Js.Math_ceil (inject_Z total / inject_Z limit)%Q in
  (pages - 1) * limit < total <= pages * limit.
Proof.
  intros Hl pages.
  assert (Hp : pages = - ((- total) / limit)).
  { unfold pages, Js.Math_ceil, Qceiling. f_equal.
    rewrite Zdiv_Qdiv. apply Qfloor_comp.
    rewrite inject_Z_opp. unfold Qdiv. ring. }
  pose proof (Z.div_mod (- total) limit ltac:(lia)) as Hdm.
  pose proof (Z.mod_pos_bound (- total) limit ltac:(lia)) as Hb.
  nia.
Qed.

(** C6. For a listing request with page and limit at least 1 and a
    minRating [m]: the page is fetched as for the request without minRating;
    the items returned are, up to the in-memory reordering, the items of
    that page whose averageRating is at least [m], so there are at most as
    many as the page holds and at most [limit]; totalBooks and totalPages
    are those of the request without minRating, totalBooks being the number
    of books that match the store query and totalPages its quotient by
    limit rounded up. *)
Theorem listBooks_minRating_filters_fetched_page
    (st : Store) (q : BooksQuery) (user : User) (m : Q) :
  1 <= q_page q ->
  1 <= q_limit q ->
  exists resp resp0,
    listBooks regex_i st (with_minRating q (Some m)) user = Json 200 resp
    /\ listBooks regex_i st (with_minRating q None) user = Json 200 resp0
    /\ Permutation (resp_books resp0) (fetch_page regex_i st q)
    /\ Permutation (resp_books resp)
         (filter (fun d => Qle_bool m (averageRating d)) (fetch_page regex_i st q))
    /\ (List.length (resp_books resp) <= List.length (fetch_page regex_i st q))%nat
    /\ Z.of_nat (List.length (resp_books resp)) <= q_limit q
    /\ totalBooks (resp_pagination resp) = totalBooks (resp_pagination resp0)
    /\ totalPages (resp_pagination resp) = totalPages (resp_pagination resp0)
    /\ totalBooks (resp_pagination resp)
       = Z.of_nat (List.length (filter (books_query regex_i q) (books st)))
    /\ (totalPages (resp_pagination resp) - 1) * q_limit q
       < totalBooks (resp_pagination resp)
       <= totalPages (resp_pagination resp) * q_limit q.
Proof.
  intros Hp Hl.
  do 2 eexists. split; [reflexivity|]. split; [reflexivity|].
  cbn [resp_books resp_pagination totalBooks totalPages].
  rewrite !fetch_page_ignores_minRating, !count_books_ignores_minRating.
  assert (Hperm : Permutation
            (rating_sort (with_minRating q (Some m))
               (rating_filter (with_minRating q (Some m)) (fetch_page regex_i st q)))
            (filter (fun d => Qle_bool m (averageRating d)) (fetch_page regex_i st q))).
  { apply rating_sort_perm. }
  assert (Hlen : (List.length
            (rating_sort (with_minRating q (Some m))
               (rating_filter (with_minRating q (Some m)) (fetch_page regex_i st q)))
            <= List.length (fetch_page regex_i st q))%nat).
  { rewrite (Permutation_length Hperm). apply filter_length_le. }
  split; [apply rating_sort_perm|].
  split; [exact Hperm|].
  split; [exact Hlen|].
  split.
  { pose proof (fetch_page_length st q ltac:(lia)). lia. }
  split; [reflexivity|]. split; [reflexivity|].
  split; [reflexivity|].
  apply Math_ceil_div. exact Hl.
Qed.

End Listing.

(** On the two-book catalogue with a page size of 2, a minRating of 4
    returns one item of the full page while totalBooks stays 2 and
    totalPages 1. *)
Lemma listBooks_minRating_shortfall :
  exists resp,
    listBooks Demo.regex Demo.two_books (Demo.by_rating Asc (Some 4%Q)) Demo.alice
    = Json 200 resp
    /\ List.length (fetch_page Demo.regex Demo.two_books (Demo.by_rating Asc None)) = 2%nat
    /\ map (fun d => book_id (doc d)) (resp_books resp) = ["b1"]
    /\ totalBooks (resp_pagination resp) = 2
    /\ totalPages (resp_pagination resp) = 1.
Proof.
  eexists. split; [reflexivity|]. repeat split; vm_compute; reflexivity.
Qed.

Lemma listBooks_minRating_filters_fetched_page_witness :
  exists resp resp0,
    listBooks Demo.regex Demo.two_books
      (with_minRating (Demo.by_rating Asc None) (Some 4%Q)) Demo.alice = Json 200 resp
    /\ listBooks Demo.regex Demo.two_books
         (with_minRating (Demo.by_rating Asc None) None) Demo.alice = Json 200 resp0
    /\ Permutation (resp_books resp0)
         (fetch_page Demo.regex Demo.two_books (Demo.by_rating Asc None))
    /\ Permutation (resp_books resp)
         (filter (fun d => Qle_bool 4 (averageRating d))
            (fetch_page Demo.regex Demo.two_books (Demo.by_rating Asc None)))
    /\ (List.length (resp_books resp)
        <= List.length (fetch_page Demo.regex Demo.two_books (Demo.by_rating Asc None)))%nat
    /\ Z.of_nat (List.length (resp_books resp)) <= q_limit (Demo.by_rating Asc None)
    /\ totalBooks (resp_pagination resp) = totalBooks (resp_pagination resp0)
    /\ totalPages (resp_pagination resp) = totalPages (resp_pagination resp0)
    /\ totalBooks (resp_pagination resp)
       = Z.of_nat (List.length (filter (books_query Demo.regex (Demo.by_rating Asc None))
                                  (books Demo.two_books)))
    /\ (totalPages (resp_pagination resp) - 1) * q_limit (Demo.by_rating Asc None)
       < totalBooks (resp_pagination resp)
       <= totalPages (resp_pagination resp) * q_limit (Demo.by_rating Asc None).
Proof.
  apply (listBooks_minRating_filters_fetched_page Demo.regex Demo.two_books
           (Demo.by_rating Asc None) Demo.alice 4%Q).
  - simpl. lia.
  - simpl. lia.
Defined.

(** *** Sorting by averageRating *)

(** With 'desc' the comparator is non-positive exactly when the first
    rating is the smaller one. *)
Lemma rating_cmp_desc (a b : BookDoc) :
  Qle_bool (rating_cmp Desc a b) 0 = true <-> (averageRating a <= averageRating b)%Q.
Proof.
  rewrite Qle_bool_iff. unfold rating_cmp.
  rewrite (Qle_minus_iff (averageRating a) (averageRating b)).
  rewrite (Qle_minus_iff ((averageRating b - averageRating a) * (-1)) 0).
  assert (E : (0 + - ((averageRating b - averageRating a) * (-1))
               == averageRating b + - averageRating a)%Q) by ring.
  rewrite E. reflexivity.
Qed.

Lemma Js_insert_desc_sorted (x : BookDoc) (l : list BookDoc) :
  Sorted (fun a b => (averageRating a <= averageRating b)%Q) l ->
  Sorted (fun a b => (averageRating a <= averageRating b)%Q)
         (Js.insert (rating_cmp Desc) x l).
Proof.
  induction 1 as [|y l Hs IH Hh]; simpl.
  - repeat constructor.
  - destruct (Qle_bool (rating_cmp Desc x y) 0) eqn:E.
    + apply rating_cmp_desc in E. repeat constructor; assumption.
    + constructor; [exact IH|].
      assert (Hyx : (averageRating y <= averageRating x)%Q).
      { apply Qlt_le_weak. apply Qnot_le_lt. intros Hle.
        apply rating_cmp_desc in Hle. congruence. }
      destruct Hh as [|z l' Hyz]; simpl.
      * repeat constructor. exact Hyx.
      * destruct (Qle_bool (rating_cmp Desc x z) 0); constructor; assumption.
Qed.

(** Whatever the store, a listing sorted by averageRating with sortOrder
    'desc' comes out with its ratings ascending. *)
Lemma listBooks_desc_is_ascending (regex_i : string -> string -> bool)
    (st : Store) (q : BooksQuery) (user : User) (resp : BooksResponse) :
  q_sortBy q = SortAverageRating ->
  q_sortOrder q = Desc ->
  listBooks regex_i st q user = Json 200 resp ->
  Sorted (fun a b => (averageRating a <= averageRating b)%Q) (resp_books resp).
Proof.
  intros Hk Ho H. unfold listBooks in H. inversion H; subst resp; clear H.
  cbn [resp_books]. unfold rating_sort. rewrite Hk, Ho.
  induction (rating_filter q (fetch_page regex_i st q)) as [|x l IH]; simpl.
  - constructor.
  - apply Js_insert_desc_sorted. exact IH.
Qed.

(** C7. On the catalogue where Dune (rated 5) is newer than Emma (rated 1),
    the store-level fetch for sortBy = averageRating is newest first, and
    the listing with sortOrder 'desc' returns Emma before Dune (ratings 1
    then 5) while 'asc' returns Dune before Emma (ratings 5 then 1). *)
Theorem listBooks_rating_order_is_inverted :
  map (fun d => book_id (doc d))
      (fetch_page Demo.regex Demo.two_books (Demo.by_rating Desc None)) = ["b1"; "b2"]
  /\ (exists resp,
        listBooks Demo.regex Demo.two_books (Demo.by_rating Desc None) Demo.alice
        = Json 200 resp
        /\ map (fun d => (book_id (doc d), Qred (averageRating d))) (resp_books resp)
           = [("b2", 1%Q); ("b1", 5%Q)])
  /\ (exists resp,
        listBooks Demo.regex Demo.two_books (Demo.by_rating Asc None) Demo.alice
        = Json 200 resp
        /\ map (fun d => (book_id (doc d), Qred (averageRating d))) (resp_books resp)
           = [("b1", 5%Q); ("b2", 1%Q)]).
Proof.
  split; [vm_compute; reflexivity|].
  split; eexists; (split; [reflexivity|vm_compute; reflexivity]).
Qed.

(** ** The caller's own review on the single-book fetch *)

Lemma find_exn_never {A E : Type} (p : A -> E + bool) (l : list A) (x : A) :
  (forall a, p a <> inr true) ->
  Js.find_exn p l <> inr (Some x).
Proof.
  intros Hp. induction l as [|a l IH]; simpl.
  - discriminate.
  - destruct (p a) as [e|[|]] eqn:Hpa.
    + discriminate.
    + exfalso. apply (Hp a). exact Hpa.
    + exact IH.
Qed.

(** The comparison of the handler holds for no review. *)
Lemma is_own_review_false (me : User) (r : PopReview) :
  is_own_review me r <> inr true.
Proof.
  unfold is_own_review. destruct (pr_user r) as [id|[u|]]; simpl; discriminate.
Qed.

(** Whatever the store and the caller, a successful single-book fetch
    carries no userReview. *)
Lemma getBook_userReview_always_empty (st : Store) (id : ObjectId) (user : User)
    (resp : BookResponse) :
  getBook st id (Some user) = Json 200 resp ->
  resp_userReview resp = None.
Proof.
  unfold getBook.
  destruct (Book_findOne_active st id) as [b|]; [|discriminate].
  destruct (own_review (Some user) (populate_reviews_sorted st b))
    as [e|[r|]] eqn:Hown; [discriminate| |].
  - exfalso. revert Hown. apply find_exn_never. apply is_own_review_false.
  - intros H. inversion H. reflexivity.
Qed.

(** C8. Alice has an active review of Dune and fetches Dune with her
    session: her review is among the reviews of the answer, and the
    userReview field is empty. *)
Theorem getBook_omits_own_active_review :
  exists resp rs,
    GET_book Demo.jwt Demo.after_delete (Some "Bearer token-alice") "b1"
    = Json 200 resp
    /\ book_reviews (resp_book resp) = Some rs
    /\ (exists r, In r rs
                  /\ userId (pr_review r) = user_id Demo.alice
                  /\ review_isActive (pr_review r) = true)
    /\ resp_userReview resp = None.
Proof.
  do 2 eexists. split; [vm_compute; reflexivity|].
  split; [reflexivity|].
  split; [|reflexivity].
  eexists. split; [right; left; reflexivity|].
  split; reflexivity.
Qed.

(** ** Likes *)

Section Likes.

Lemma oid_eqb_eq (a b : ObjectId) : oid_eqb a b = true <-> a = b.
Proof. apply String.eqb_eq. Qed.

Lemma oid_eqb_refl (a : ObjectId) : oid_eqb a a = true.
Proof. apply String.eqb_refl. Qed.

Lemma oid_eqb_neq (a b : ObjectId) : oid_eqb a b = false <-> a <> b.
Proof. apply String.eqb_neq. Qed.

Lemma indexOf_lower (l : list ObjectId) (u : ObjectId) :
  -1 <= Js.indexOf oid_eqb l u.
Proof.
  induction l as [|y l IH]; simpl; [lia|].
  destruct (oid_eqb y u); [lia|].
  destruct (Js.indexOf oid_eqb l u =? -1) eqn:E; lia.
Qed.

Lemma indexOf_absent (l : list ObjectId) (u : ObjectId) :
  ~ In u l -> Js.indexOf oid_eqb l u = -1.
Proof.
  induction l as [|y l IH]; simpl; intros Hn; [reflexivity|].
  destruct (oid_eqb y u) eqn:E.
  - apply oid_eqb_eq in E. exfalso. apply Hn. left. exact E.
  - rewrite IH by (intros H; apply Hn; right; exact H). reflexivity.
Qed.

(** [indexOf] finds the first occurrence. *)
Lemma indexOf_present (l : list ObjectId) (u : ObjectId) :
  In u l ->
  exists l1 l2, l = l1 ++ u :: l2 /\ ~ In u l1
                /\ Js.indexOf oid_eqb l u = Z.of_nat (List.length l1).
Proof.
  induction l as [|y l IH]; simpl; intros Hin; [contradiction|].
  destruct (oid_eqb y u) eqn:E.
  - apply oid_eqb_eq in E. subst y. exists [], l. simpl. auto.
  - apply oid_eqb_neq in E.
    destruct Hin as [Hy|Hin]; [contradiction|].
    destruct (IH Hin) as [l1 [l2 [Hl [Hn Hi]]]].
    exists (y :: l1), l2. subst l. simpl. split; [reflexivity|].
    split; [intros [H|H]; [apply E; exact H | apply Hn; exact H]|].
    rewrite Hi.
    destruct (Z.of_nat (List.length l1) =? -1) eqn:E1; lia.
Qed.

Lemma splice1_middle {A : Type} (l1 l2 : list A) (x : A) :
  Js.splice1 (List.length l1) (l1 ++ x :: l2) = l1 ++ l2.
Proof.
  induction l1 as [|y l1 IH]; simpl; [reflexivity|].
  rewrite IH. reflexivity.
Qed.

(** Like: the user is appended. *)
Lemma toggle_absent (u : ObjectId) (l : list ObjectId) :
  ~ In u l -> toggle u l = l ++ [u].
Proof.
  intros Hn. unfold toggle. rewrite (indexOf_absent l u Hn). reflexivity.
Qed.

(** Unlike: the first occurrence is removed. *)
Lemma toggle_present (u : ObjectId) (l1 l2 : list ObjectId) :
  ~ In u l1 -> toggle u (l1 ++ u :: l2) = l1 ++ l2.
Proof.
  intros Hn. unfold toggle.
  destruct (indexOf_present (l1 ++ u :: l2) u) as [k1 [k2 [Hl [Hk Hi]]]].
  { apply in_or_app. right. left. reflexivity. }
  assert (Hlen : List.length k1 = List.length l1).
  { clear Hi. revert k1 Hl Hk. induction l1 as [|y l1 IH]; intros k1 Hl Hk.
    - destruct k1 as [|z k1]; [reflexivity|].
      simpl in Hl. inversion Hl. subst z. exfalso. apply Hk. left. reflexivity.
    - destruct k1 as [|z k1]; simpl in Hl.
      + inversion Hl. subst y. exfalso. apply Hn. left. reflexivity.
      + inversion Hl. simpl. f_equal. apply IH; auto.
        * intros H. apply Hn. right. exact H.
        * intros H. apply Hk. right. exact H. }
  rewrite Hi, Hlen.
  replace (-1 <? Z.of_nat (List.length l1)) with true by (symmetry; apply Z.ltb_lt; lia).
  rewrite Nat2Z.id. apply splice1_middle.
Qed.

Lemma toggle_NoDup (u : ObjectId) (l : list ObjectId) :
  NoDup l -> NoDup (toggle u l).
Proof.
  intros Hnd. destruct (in_dec string_dec u l) as [Hin|Hn].
  - destruct (indexOf_present l u Hin) as [l1 [l2 [Hl [Hk _]]]]. subst l.
    rewrite toggle_present by exact Hk.
    apply NoDup_remove_1 in Hnd. exact Hnd.
  - rewrite toggle_absent by exact Hn.
    apply NoDup_app; [exact Hnd | repeat constructor; intros [] | ].
    intros x Hx [Hu|[]]. subst x. exact (Hn Hx).
Qed.

(** Like then unlike is the identity on the array. *)
Lemma toggle_twice_absent (u : ObjectId) (l : list ObjectId) :
  ~ In u l -> toggle u (toggle u l) = l.
Proof.
  intros Hn. rewrite (toggle_absent u l Hn).
  replace (l ++ [u]) with (l ++ u :: []) by reflexivity.
  rewrite toggle_present by exact Hn. apply app_nil_r.
Qed.

(** Unlike then like moves the user to the end of the array. *)
Lemma toggle_twice_perm (u : ObjectId) (l : list ObjectId) :
  NoDup l -> Permutation (toggle u (toggle u l)) l.
Proof.
  intros Hnd. destruct (in_dec string_dec u l) as [Hin|Hn].
  - destruct (indexOf_present l u Hin) as [l1 [l2 [Hl [Hk _]]]]. subst l.
    rewrite toggle_present by exact Hk.
    apply NoDup_remove_2 in Hnd.
    rewrite toggle_absent by exact Hnd.
    rewrite <- app_assoc.
    apply Permutation_app_head.
    apply Permutation_sym, Permutation_cons_append.
  - rewrite toggle_twice_absent by exact Hn. apply Permutation_refl.
Qed.

End Likes.

(** ** Saving a review that was read by its [_id] *)

Section Saving.

Lemma findOne_active_spec (st : Store) (id : ObjectId) (r : Review) :
  Review_findOne_active st id = Some r ->
  In r (reviews st) /\ review_id r = id /\ review_isActive r = true.
Proof.
  unfold Review_findOne_active. intros H.
  apply find_some in H. destruct H as [Hin Hp].
  apply andb_true_iff in Hp. destruct Hp as [H1 H2].
  apply oid_eqb_eq in H1. auto.
Qed.

(** Under the [_id] index, the document that [save] rewrites is the one that
    was read. *)
Lemma update_review_map {B : Type} (g : Review -> B) (l : list Review)
    (id : ObjectId) (r r' : Review) :
  NoDup (map review_id l) -> In r l -> review_id r = id -> g r' = g r ->
  map g (update_review id (fun _ => r') l) = map g l.
Proof.
  intros Hnd Hin Hid Hg.
  induction l as [|a l IH]; simpl in *; [contradiction|].
  inversion Hnd as [|x xs Hna Hnd']; subst.
  destruct (oid_eqb (review_id a) (review_id r)) eqn:E.
  - apply oid_eqb_eq in E. simpl. f_equal.
    destruct Hin as [Ha|Hin]; [subst a; exact Hg|].
    exfalso. apply Hna. rewrite E. apply in_map. exact Hin.
  - apply oid_eqb_neq in E. simpl. f_equal.
    destruct Hin as [Ha|Hin]; [subst a; contradiction|].
    apply IH; assumption.
Qed.

Lemma update_review_Forall (P : Review -> Prop) (l : list Review)
    (id : ObjectId) (r' : Review) :
  Forall P l -> P r' -> Forall P (update_review id (fun _ => r') l).
Proof.
  intros Hl Hr. induction Hl as [|a l Ha Hl IH]; simpl; [constructor|].
  destruct (oid_eqb (review_id a) id); constructor; assumption.
Qed.

Lemma find_update_review (l : list Review) (id : ObjectId) (r r' : Review) :
  NoDup (map review_id l) -> In r l -> review_id r = id ->
  review_id r' = id -> review_isActive r' = true ->
  find (fun x => oid_eqb (review_id x) id && review_isActive x)
       (update_review id (fun _ => r') l) = Some r'.
Proof.
  intros Hnd Hin Hid Hid' Hact.
  induction l as [|a l IH]; simpl in *; [contradiction|].
  inversion Hnd as [|x xs Hna Hnd']; subst.
  destruct (oid_eqb (review_id a) (review_id r)) eqn:E; simpl.
  - rewrite Hid', oid_eqb_refl, Hact. reflexivity.
  - rewrite E. simpl.
    apply oid_eqb_neq in E.
    destruct Hin as [Ha|Hin]; [subst a; contradiction|].
    apply IH; assumption.
Qed.

Lemma update_review_same (l : list Review) (id : ObjectId) (r : Review) :
  NoDup (map review_id l) -> In r l -> review_id r = id ->
  update_review id (fun _ => r) l = l.
Proof.
  intros Hnd Hin Hid.
  rewrite <- (map_id (update_review id (fun _ => r) l)).
  rewrite <- (map_id l) at 2.
  apply update_review_map with (r := r); auto.
Qed.

Lemma update_review_twice (l : list Review) (id : ObjectId) (r1 r2 : Review) :
  review_id r1 = id ->
  update_review id (fun _ => r2) (update_review id (fun _ => r1) l)
  = update_review id (fun _ => r2) l.
Proof.
  intros Hid. induction l as [|a l IH]; simpl; [reflexivity|].
  destruct (oid_eqb (review_id a) id) eqn:E; simpl.
  - rewrite Hid, oid_eqb_refl. reflexivity.
  - rewrite E, IH. reflexivity.
Qed.

(** Rewriting a stored review without touching its [_id], its pair or the
    absence of repetition among its likers keeps the store well formed and
    its keys in place. *)
Lemma store_ok_update (st : Store) (us : list User) (bs : list Book)
    (r r' : Review) :
  store_ok st -> In r (reviews st) ->
  review_id r' = review_id r -> pair_of r' = pair_of r -> NoDup (likes r') ->
  let st' := mkStore us bs (update_review (review_id r) (fun _ => r') (reviews st)) in
  store_ok st'
  /\ map review_id (reviews st') = map review_id (reviews st)
  /\ map pair_of (reviews st') = map pair_of (reviews st).
Proof.
  intros [Hids Hpairs Hlikes] Hin Hid Hpair Hl st'.
  assert (E1 : map review_id (reviews st') = map review_id (reviews st)).
  { apply update_review_map with (r := r); auto. }
  assert (E2 : map pair_of (reviews st') = map pair_of (reviews st)).
  { apply update_review_map with (r := r); auto. }
  split; [|split; assumption].
  constructor.
  - rewrite E1. exact Hids.
  - rewrite E2. exact Hpairs.
  - apply update_review_Forall; assumption.
Qed.

End Saving.

(** A collection without reviews is well formed. *)
Lemma store_ok_no_reviews (us : list User) (bs : list Book) :
  store_ok (mkStore us bs []).
Proof. constructor; cbn; constructor. Qed.

(** On a review that is missing or soft-deleted the handler answers 404 and
    writes nothing. *)
Lemma toggleLike_not_found (st : Store) (user : User) (id : ObjectId) :
  Review_findOne_active st id = None ->
  toggleLike st user id = (st, Failure 404 "Review not found").
Proof. unfold toggleLike. intros H. rewrite H. reflexivity. Qed.

(** C9. In a well-formed store, when a user toggles the like of an active
    review twice in a row, both calls answer 200, the second answer's
    count is the review's original likeCount and its isLiked the opposite
    of the first's; the review then stored has the same likers as before
    (its array is a permutation of the original one) and the same
    likeCount; and when the first call was a like, the store after the
    second call is the store before the first. *)
Theorem toggleLike_twice_restores_likes
    (st : Store) (user : User) (id : ObjectId) (r : Review) :
  store_ok st ->
  Review_findOne_active st id = Some r ->
  exists st1 resp1 st2 r2,
    toggleLike st user id = (st1, Json 200 resp1)
    /\ toggleLike st1 user id
       = (st2, Json 200 (mkLikeResponse (likeCount r) (negb (resp_isLiked resp1))))
    /\ Review_findOne_active st2 id = Some r2
    /\ Permutation (likes r2) (likes r)
    /\ (forall u, In u (likes r2) <-> In u (likes r))
    /\ likeCount r2 = likeCount r
    /\ (resp_isLiked resp1 = true -> st2 = st).
Proof.
  intros Hok Hfind.
  destruct (findOne_active_spec st id r Hfind) as [Hin [Hid Hact]].
  pose proof (ok_ids st Hok) as Hids.
  assert (Hnd : NoDup (likes r)).
  { pose proof (ok_likes st Hok) as Hl. rewrite Forall_forall in Hl. auto. }
  set (u := user_id user).
  set (r1 := mkReview (review_id r) (bookId r) (userId r) (rating r) (reviewText r)
               (review_title r) (toggle u (likes r)) (review_isActive r)
               (editedAt r) (review_createdAt r)).
  set (r2 := mkReview (review_id r1) (bookId r1) (userId r1) (rating r1)
               (reviewText r1) (review_title r1) (toggle u (likes r1))
               (review_isActive r1) (editedAt r1) (review_createdAt r1)).
  set (st1 := mkStore (users st) (books st)
                (update_review id (fun _ => r1) (reviews st))).
  set (st2 := mkStore (users st1) (books st1)
                (update_review id (fun _ => r2) (reviews st1))).
  assert (Hfind1 : Review_findOne_active st1 id = Some r1).
  { unfold Review_findOne_active, st1. cbn [reviews].
    apply find_update_review with (r := r); auto. }
  destruct (findOne_active_spec st1 id r1 Hfind1) as [Hin1 _].
  assert (Hids1 : NoDup (map review_id (reviews st1))).
  { unfold st1. cbn [reviews].
    rewrite (update_review_map review_id (reviews st) id r r1); auto. }
  assert (Hfind2 : Review_findOne_active st2 id = Some r2).
  { unfold Review_findOne_active, st2. cbn [reviews].
    apply find_update_review with (r := r1); auto. }
  assert (Hperm : Permutation (likes r2) (likes r)).
  { cbn [likes r2 r1]. apply toggle_twice_perm. exact Hnd. }
  exists st1, (mkLikeResponse (likeCount r1) (Js.indexOf oid_eqb (likes r) u =? -1)),
    st2, r2.
  split.
  { unfold toggleLike. rewrite Hfind. reflexivity. }
  split.
  { unfold toggleLike. rewrite Hfind1. fold u. fold r2. fold st2.
    f_equal. f_equal. f_equal.
    - unfold likeCount. rewrite (Permutation_length Hperm). reflexivity.
    - cbn [resp_isLiked likes r1].
      destruct (in_dec string_dec u (likes r)) as [Hu|Hu].
      + destruct (indexOf_present (likes r) u Hu) as [l1 [l2 [Hl [Hk Hi]]]].
        rewrite Hi. rewrite Hl, toggle_present by exact Hk.
        rewrite Hl in Hnd. apply NoDup_remove_2 in Hnd.
        rewrite indexOf_absent by exact Hnd.
        replace (Z.of_nat (List.length l1) =? -1) with false
          by (symmetry; apply Z.eqb_neq; lia).
        reflexivity.
      + rewrite (indexOf_absent (likes r) u Hu).
        rewrite toggle_absent by exact Hu.
        destruct (indexOf_present (likes r ++ [u]) u) as [l1 [l2 [_ [_ Hi]]]].
        { apply in_or_app. right. left. reflexivity. }
        rewrite Hi.
        replace (Z.of_nat (List.length l1) =? -1) with false
          by (symmetry; apply Z.eqb_neq; lia).
        reflexivity. }
  split; [exact Hfind2|].
  split; [exact Hperm|].
  split.
  { intros x. split; intros Hx.
    - apply (Permutation_in x Hperm Hx).
    - apply (Permutation_in x (Permutation_sym Hperm) Hx). }
  split.
  { unfold likeCount. rewrite (Permutation_length Hperm). reflexivity. }
  cbn [resp_isLiked]. intros Hliked.
  assert (Hu : ~ In u (likes r)).
  { intros Hu. destruct (indexOf_present (likes r) u Hu) as [l1 [l2 [_ [_ Hi]]]].
    rewrite Hi in Hliked. apply Z.eqb_eq in Hliked. lia. }
  assert (Hr2 : r2 = r).
  { unfold r2. cbn [likes r1 review_id bookId userId rating reviewText review_title
                    review_isActive editedAt review_createdAt].
    rewrite toggle_twice_absent by exact Hu. destruct r; reflexivity. }
  unfold st2. cbn [users books reviews st1].
  rewrite update_review_twice by exact Hid.
  rewrite Hr2. rewrite update_review_same by auto.
  destruct st; reflexivity.
Qed.

Ltac nodup_closed :=
  repeat (constructor; [cbn; intuition discriminate|]); constructor.

Lemma toggleLike_twice_restores_likes_witness :
  exists st1 resp1 st2 r2,
    toggleLike Demo.after_delete Demo.bob "r1" = (st1, Json 200 resp1)
    /\ toggleLike st1 Demo.bob "r1"
       = (st2, Json 200 (mkLikeResponse (likeCount stored_alice_review)
                           (negb (resp_isLiked resp1))))
    /\ Review_findOne_active st2 "r1" = Some r2
    /\ Permutation (likes r2) (likes stored_alice_review)
    /\ (forall u, In u (likes r2) <-> In u (likes stored_alice_review))
    /\ likeCount r2 = likeCount stored_alice_review
    /\ (resp_isLiked resp1 = true -> st2 = Demo.after_delete).
Proof.
  apply (toggleLike_twice_restores_likes Demo.after_delete Demo.bob "r1"
           stored_alice_review).
  - constructor; vm_compute; [nodup_closed | nodup_closed | repeat constructor].
  - vm_compute. reflexivity.
Defined.

(** ** The review collection under any script of requests *)

Section Scripts.

Variable isbn_match : string -> bool.
Variable currentYear : Z.

Lemma store_ok_same_reviews (st st' : Store) :
  reviews st' = reviews st -> store_ok st -> store_ok st'.
Proof.
  intros E [H1 H2 H3]. constructor; rewrite E; assumption.
Qed.

Lemma keys_same_reviews (st st' : Store) :
  reviews st' = reviews st -> keys st' = keys st.
Proof. unfold keys. intros E. rewrite E. reflexivity. Qed.

Lemma createBook_reviews (st : Store) (user : User) (body : BookBody)
    (new_id : ObjectId) (now : Date) :
  reviews (fst (createBook isbn_match currentYear st user body new_id now))
  = reviews st.
Proof.
  unfold createBook.
  destruct (new_Book new_id now (cast_body body) (user_id user)); [|reflexivity].
  destruct (paths_valid isbn_match currentYear (cast_body body)); reflexivity.
Qed.

Lemma updateBook_reviews (st : Store) (user : User) (id : ObjectId)
    (body : BookBody) :
  reviews (fst (updateBook isbn_match currentYear st user id body)) = reviews st.
Proof.
  unfold updateBook.
  destruct (Book_findOne_active st id); [|reflexivity].
  destruct (negb _); [reflexivity|].
  destruct (paths_valid isbn_match currentYear (cast_body body)); [|reflexivity].
  destruct (Book_findById _ id); reflexivity.
Qed.

(** The cascade of deleteBook rewrites the active flag only. *)
Lemma deleteBook_reviews (st : Store) (user : User) (id : ObjectId) :
  map review_id (reviews (fst (deleteBook st user id))) = map review_id (reviews st)
  /\ map pair_of (reviews (fst (deleteBook st user id))) = map pair_of (reviews st)
  /\ map likes (reviews (fst (deleteBook st user id))) = map likes (reviews st).
Proof.
  unfold deleteBook.
  destruct (Book_findOne_active st id); [|auto].
  destruct (negb _); [auto|].
  cbn [fst reviews]. rewrite !map_map.
  repeat split; apply map_ext; intros r;
    destruct (oid_eqb (bookId r) id); reflexivity.
Qed.

Lemma index_conflict_false (st : Store) (r : Review) :
  index_conflict st r = false ->
  ~ In (review_id r) (map review_id (reviews st))
  /\ ~ In (pair_of r) (map pair_of (reviews st)).
Proof.
  unfold index_conflict. intros H.
  split; intros Hin; apply in_map_iff in Hin; destruct Hin as [r' [E Hin]];
    pose proof (existsb_exists
                  (fun r' => oid_eqb (review_id r') (review_id r) || same_pair r r')
                  (reviews st)) as [_ Hex];
    rewrite Hex in H; try discriminate; exists r'; (split; [exact Hin|]).
  - rewrite E, oid_eqb_refl. reflexivity.
  - unfold pair_of in E. inversion E as [[E1 E2]].
    unfold same_pair. rewrite E1, E2, !oid_eqb_refl. apply orb_true_r.
Qed.

Lemma index_conflict_pair (st : Store) (r r' : Review) :
  In r' (reviews st) -> pair_of r' = pair_of r -> index_conflict st r = true.
Proof.
  intros Hin E. unfold index_conflict. apply existsb_exists.
  exists r'. split; [exact Hin|].
  unfold pair_of in E. inversion E as [[E1 E2]].
  unfold same_pair. rewrite E1, E2, !oid_eqb_refl. apply orb_true_r.
Qed.

Lemma NoDup_snoc {A : Type} (l : list A) (x : A) :
  NoDup l -> ~ In x l -> NoDup (l ++ [x]).
Proof.
  intros Hl Hx. apply NoDup_app; [exact Hl | repeat constructor; intros [] |].
  intros a Ha [E|[]]. subst a. exact (Hx Ha).
Qed.

(** An insert either is refused and leaves the store as it was, or appends
    a review whose [_id] and pair are new. *)
Lemma Review_insert_ok (st st' : Store) (r : Review) :
  store_ok st -> likes r = [] ->
  Review_insert st r = inr st' ->
  store_ok st' /\ keys st' = keys st ++ [(review_id r, pair_of r)].
Proof.
  intros [H1 H2 H3] Hl. unfold Review_insert.
  destruct (negb (review_valid r)); [discriminate|].
  destruct (index_conflict st r) eqn:E; [discriminate|].
  intros H. inversion H; subst st'; clear H.
  destruct (index_conflict_false st r E) as [Hid Hp].
  split.
  - constructor; cbn [reviews].
    + rewrite map_app. apply NoDup_snoc; assumption.
    + rewrite map_app. apply NoDup_snoc; assumption.
    + apply Forall_app. split; [exact H3|].
      constructor; [rewrite Hl; constructor | constructor].
  - unfold keys. cbn [reviews]. rewrite map_app. reflexivity.
Qed.

Lemma createReview_ok (st : Store) (user : User) (body : ReviewBody)
    (new_id : ObjectId) (now : Date) :
  store_ok st ->
  let st' := fst (createReview st user body new_id now) in
  store_ok st' /\ exists added, keys st' = keys st ++ added.
Proof.
  intros Hok. unfold createReview.
  destruct (Book_findOne_active st (rb_bookId body));
    [|split; [exact Hok | exists []; symmetry; apply app_nil_r]].
  destruct (Review_findOne_active_pair st (rb_bookId body) (user_id user));
    [split; [exact Hok | exists []; symmetry; apply app_nil_r]|].
  destruct (Review_insert st _) as [e|st'] eqn:E; cbn [fst].
  - split; [exact Hok | exists []; symmetry; apply app_nil_r].
  - match type of E with
    | Review_insert st ?r = _ =>
        destruct (Review_insert_ok st st' r Hok (eq_refl : likes r = []) E)
          as [Hok' Hk]
    end.
    split; [exact Hok' | eexists; exact Hk].
Qed.

Lemma keys_update (st : Store) (us : list User) (bs : list Book) (r r' : Review) :
  store_ok st -> In r (reviews st) ->
  review_id r' = review_id r -> pair_of r' = pair_of r ->
  keys (mkStore us bs (update_review (review_id r) (fun _ => r') (reviews st)))
  = keys st.
Proof.
  intros Hok Hin Hid Hp. unfold keys. cbn [reviews].
  apply update_review_map with (r := r); auto.
  - apply (ok_ids st Hok).
  - rewrite Hid, Hp. reflexivity.
Qed.

Lemma updateReview_ok (st : Store) (user : User) (id : ObjectId)
    (body : ReviewBody) (now : Date) :
  store_ok st ->
  let st' := fst (updateReview st user id body now) in
  store_ok st' /\ keys st' = keys st.
Proof.
  intros Hok. unfold updateReview.
  destruct (Review_findOne_active st id) as [r|] eqn:Hf; [|auto].
  destruct (findOne_active_spec st id r Hf) as [Hin [Hid _]]. subst id.
  destruct (negb _); [auto|].
  destruct (review_valid _); [|auto].
  cbn [fst]. split.
  - apply (store_ok_update st (users st) (books st) r); auto.
    cbn [likes]. pose proof (ok_likes st Hok) as Hl.
    rewrite Forall_forall in Hl. auto.
  - apply keys_update; auto.
Qed.

Lemma deleteReview_ok (st : Store) (user : User) (id : ObjectId) :
  store_ok st ->
  let st' := fst (deleteReview st user id) in
  store_ok st' /\ keys st' = keys st.
Proof.
  intros Hok. unfold deleteReview.
  destruct (Review_findOne_active st id) as [r|] eqn:Hf; [|auto].
  destruct (findOne_active_spec st id r Hf) as [Hin [Hid _]]. subst id.
  destruct (negb _); [auto|].
  cbn [fst]. split.
  - apply (store_ok_update st (users st) (books st) r); auto.
    cbn [likes]. pose proof (ok_likes st Hok) as Hl.
    rewrite Forall_forall in Hl. auto.
  - apply keys_update; auto.
Qed.

Lemma toggleLike_ok (st : Store) (user : User) (id : ObjectId) :
  store_ok st ->
  let st' := fst (toggleLike st user id) in
  store_ok st' /\ keys st' = keys st.
Proof.
  intros Hok. unfold toggleLike.
  destruct (Review_findOne_active st id) as [r|] eqn:Hf; [|auto].
  destruct (findOne_active_spec st id r Hf) as [Hin [Hid _]]. subst id.
  cbn [fst]. split.
  - apply (store_ok_update st (users st) (books st) r); auto.
    cbn [likes]. apply toggle_NoDup.
    pose proof (ok_likes st Hok) as Hl. rewrite Forall_forall in Hl. auto.
  - apply keys_update; auto.
Qed.

Lemma deleteBook_ok (st : Store) (user : User) (id : ObjectId) :
  store_ok st ->
  let st' := fst (deleteBook st user id) in
  store_ok st' /\ keys st' = keys st.
Proof.
  intros [H1 H2 H3].
  destruct (deleteBook_reviews st user id) as [E1 [E2 E3]].
  split.
  - constructor; [rewrite E1; exact H1 | rewrite E2; exact H2 |].
    apply Forall_map with (f := likes) (P := @NoDup ObjectId).
    rewrite E3. apply Forall_map. exact H3.
  - unfold keys.
    assert (E : forall l l' : list Review,
               map review_id l' = map review_id l ->
               map pair_of l' = map pair_of l ->
               map (fun r => (review_id r, pair_of r)) l'
               = map (fun r => (review_id r, pair_of r)) l).
    { induction l as [|a l IH]; intros [|a' l'] Ha Hb; simpl in *;
        try discriminate; [reflexivity|].
      inversion Ha. inversion Hb. f_equal; [congruence|]. apply IH; assumption. }
    apply E; assumption.
Qed.

(** Every request keeps the store well formed and the stored keys in place,
    appending at most new ones. *)
Lemma step_ok (st : Store) (op : Op) :
  store_ok st ->
  store_ok (step isbn_match currentYear st op)
  /\ exists added, keys (step isbn_match currentYear st op) = keys st ++ added.
Proof.
  intros Hok. destruct op as [u b i n|u i b|u i|u b i n|u i b n|u i|u i]; cbn [step].
  - split; [eapply store_ok_same_reviews; [apply createBook_reviews|exact Hok]|].
    exists []. rewrite app_nil_r. apply keys_same_reviews, createBook_reviews.
  - split; [eapply store_ok_same_reviews; [apply updateBook_reviews|exact Hok]|].
    exists []. rewrite app_nil_r. apply keys_same_reviews, updateBook_reviews.
  - destruct (deleteBook_ok st u i Hok) as [H1 H2].
    split; [exact H1|]. exists []. rewrite app_nil_r. exact H2.
  - apply createReview_ok. exact Hok.
  - destruct (updateReview_ok st u i b n Hok) as [H1 H2].
    split; [exact H1|]. exists []. rewrite app_nil_r. exact H2.
  - destruct (deleteReview_ok st u i Hok) as [H1 H2].
    split; [exact H1|]. exists []. rewrite app_nil_r. exact H2.
  - destruct (toggleLike_ok st u i Hok) as [H1 H2].
    split; [exact H1|]. exists []. rewrite app_nil_r. exact H2.
Qed.

Lemma run_ok (ops : list Op) (st : Store) :
  store_ok st ->
  store_ok (run isbn_match currentYear st ops)
  /\ exists added, keys (run isbn_match currentYear st ops) = keys st ++ added.
Proof.
  revert st. induction ops as [|op ops IH]; intros st Hok; cbn [run fold_left].
  - split; [exact Hok|]. exists []. symmetry. apply app_nil_r.
  - destruct (step_ok st op Hok) as [Hok1 [a1 E1]].
    destruct (IH _ Hok1) as [Hok2 [a2 E2]].
    split; [exact Hok2|].
    exists (a1 ++ a2). unfold run in E2. rewrite E2, E1, app_assoc. reflexivity.
Qed.

(** C10. From a store that satisfies its unique indexes, after any script
    of write requests: no two stored reviews share a (bookId, userId) pair,
    active or not; every review stored before the script is still stored,
    at its place and with its [_id] and pair; and createReview for a pair
    that has a stored review, active or not, adds no document. *)
Theorem one_review_document_per_pair (st : Store) (ops : list Op) :
  store_ok st ->
  let st' := run isbn_match currentYear st ops in
  NoDup (map pair_of (reviews st'))
  /\ (exists added, keys st' = keys st ++ added)
  /\ (forall (r : Review) (user : User) (body : ReviewBody)
             (new_id : ObjectId) (now : Date),
        In r (reviews st') ->
        bookId r = rb_bookId body -> userId r = user_id user ->
        fst (createReview st' user body new_id now) = st').
Proof.
  intros Hok st'.
  destruct (run_ok ops st Hok) as [Hok' Hkeys].
  split; [apply (ok_pairs _ Hok')|].
  split; [exact Hkeys|].
  intros r user body new_id now Hin Hb Hu.
  unfold createReview.
  destruct (Book_findOne_active st' (rb_bookId body)); [|reflexivity].
  destruct (Review_findOne_active_pair st' (rb_bookId body) (user_id user));
    [reflexivity|].
  unfold Review_insert.
  destruct (negb (review_valid _)); [reflexivity|].
  rewrite (index_conflict_pair st' _ r Hin); [reflexivity|].
  unfold pair_of. cbn [bookId userId]. rewrite Hb, Hu. reflexivity.
Qed.

End Scripts.

Lemma one_review_document_per_pair_witness :
  let st' := run Demo.isbn Demo.year Demo.empty Demo.script in
  NoDup (map pair_of (reviews st'))
  /\ (exists added, keys st' = keys Demo.empty ++ added)
  /\ (forall (r : Review) (user : User) (body : ReviewBody)
             (new_id : ObjectId) (now : Date),
        In r (reviews st') ->
        bookId r = rb_bookId body -> userId r = user_id user ->
        fst (createReview st' user body new_id now) = st').
Proof.
  apply (one_review_document_per_pair Demo.isbn Demo.year Demo.empty Demo.script).
  constructor; vm_compute; [nodup_closed | nodup_closed | repeat constructor].
Defined.

(** * Further properties of the routes *)

(** ** Sorting and paging a cursor *)

Section Cursor.

Context {A : Type} (le : A -> A -> bool).

Lemma sort_insert_perm (x : A) (l : list A) :
  Permutation (sort_insert le x l) (x :: l).
Proof.
  induction l as [|y l IH]; simpl; [apply Permutation_refl|].
  destruct (le x y); [apply Permutation_refl|].
  apply perm_trans with (y :: x :: l); [apply perm_skip, IH | apply perm_swap].
Qed.

Lemma sort_by_perm (l : list A) : Permutation (sort_by le l) l.
Proof.
  induction l as [|x l IH]; simpl; [apply perm_nil|].
  apply perm_trans with (x :: sort_by le l);
    [apply sort_insert_perm | apply perm_skip, IH].
Qed.

Lemma sort_by_length (l : list A) : List.length (sort_by le l) = List.length l.
Proof. apply Permutation_length, sort_by_perm. Qed.

Lemma sort_by_In (l : list A) (x : A) : In x (sort_by le l) <-> In x l.
Proof.
  split; apply Permutation_in; [|apply Permutation_sym]; apply sort_by_perm.
Qed.

Hypothesis le_total : forall x y, le x y = true \/ le y x = true.
Hypothesis le_trans : forall x y z, le x y = true -> le y z = true -> le x z = true.

Lemma sort_insert_sorted (x : A) (l : list A) :
  StronglySorted (fun a b => le a b = true) l ->
  StronglySorted (fun a b => le a b = true) (sort_insert le x l).
Proof.
  induction 1 as [|y l Hs IH Hy]; simpl.
  - repeat constructor.
  - destruct (le x y) eqn:E.
    + constructor; [constructor; assumption|].
      constructor; [exact E|].
      rewrite Forall_forall in *. intros z Hz. apply le_trans with y; auto.
    + constructor; [exact IH|].
      rewrite Forall_forall in *. intros z Hz.
      apply (Permutation_in _ (sort_insert_perm x l)) in Hz.
      destruct Hz as [Hz|Hz]; [subst z|auto].
      destruct (le_total x y) as [H|H]; congruence.
Qed.

Lemma sort_by_sorted (l : list A) :
  StronglySorted (fun a b => le a b = true) (sort_by le l).
Proof.
  induction l as [|x l IH]; simpl; [constructor|].
  apply sort_insert_sorted, IH.
Qed.

End Cursor.

Lemma In_firstn {A : Type} (n : nat) (l : list A) (x : A) :
  In x (firstn n l) -> In x l.
Proof.
  intros H. rewrite <- (firstn_skipn n l). apply in_or_app. left. exact H.
Qed.

Lemma In_skipn {A : Type} (n : nat) (l : list A) (x : A) :
  In x (skipn n l) -> In x l.
Proof.
  intros H. rewrite <- (firstn_skipn n l). apply in_or_app. right. exact H.
Qed.

Section Sublists.

Context {A : Type} (R : A -> A -> Prop).

Lemma StronglySorted_skipn (n : nat) (l : list A) :
  StronglySorted R l -> StronglySorted R (skipn n l).
Proof.
  revert l. induction n as [|n IH]; intros l H; [exact H|].
  destruct l as [|x l]; [constructor|].
  simpl. apply IH. apply StronglySorted_inv in H. tauto.
Qed.

Lemma StronglySorted_firstn (n : nat) (l : list A) :
  StronglySorted R l -> StronglySorted R (firstn n l).
Proof.
  revert l. induction n as [|n IH]; intros l H; [constructor|].
  destruct l as [|x l]; [constructor|].
  apply StronglySorted_inv in H. destruct H as [H1 H2].
  simpl. constructor; [apply IH, H1|].
  rewrite Forall_forall in *. intros y Hy. apply H2.
  apply (In_firstn n l y Hy).
Qed.

Lemma StronglySorted_filter (p : A -> bool) (l : list A) :
  StronglySorted R l -> StronglySorted R (filter p l).
Proof.
  induction 1 as [|x l Hs IH Hx]; simpl; [constructor|].
  destruct (p x); [|exact IH].
  constructor; [exact IH|].
  rewrite Forall_forall in *. intros y Hy. apply filter_In in Hy. apply Hx. tauto.
Qed.

End Sublists.

Lemma StronglySorted_map {A B : Type} (f : A -> B) (R : B -> B -> Prop) (l : list A) :
  StronglySorted (fun a b => R (f a) (f b)) l -> StronglySorted R (map f l).
Proof.
  induction 1 as [|x l Hs IH Hx]; simpl; constructor; [exact IH|].
  rewrite Forall_forall in *. intros y Hy. apply in_map_iff in Hy.
  destruct Hy as [a [E Ha]]. subst y. auto.
Qed.



Lemma page_length {A : Type} (L S : nat) (l : list A) :
  List.length (firstn L (skipn S l)) = Nat.min L (List.length l - S).
Proof. rewrite length_firstn, length_skipn. reflexivity. Qed.

(** Lexicographic order on strings is transitive. *)
Lemma ascii_compare_Lt_trans (a b c : ascii) :
  Ascii.compare a b = Lt -> Ascii.compare b c = Lt -> Ascii.compare a c = Lt.
Proof.
  unfold Ascii.compare. rewrite !N.compare_lt_iff. apply N.lt_trans.
Qed.

Lemma string_compare_not_Gt_trans (s1 s2 s3 : string) :
  String.compare s1 s2 <> Gt -> String.compare s2 s3 <> Gt ->
  String.compare s1 s3 <> Gt.
Proof.
  revert s2 s3. induction s1 as [|c1 s1 IH]; intros [|c2 s2] [|c3 s3]; simpl;
    try congruence.
  destruct (Ascii.compare c1 c2) eqn:E12; try congruence;
    destruct (Ascii.compare c2 c3) eqn:E23; try congruence; intros H1 H2.
  - apply Ascii.compare_eq_iff in E12, E23. subst c2 c3.
    assert (E : Ascii.compare c1 c1 = Eq).
    { unfold Ascii.compare. apply N.compare_refl. }
    rewrite E. eapply IH; eassumption.
  - apply Ascii.compare_eq_iff in E12. subst c2. rewrite E23. congruence.
  - apply Ascii.compare_eq_iff in E23. subst c3. rewrite E12. congruence.
  - rewrite (ascii_compare_Lt_trans _ _ _ E12 E23). congruence.
Qed.

Lemma string_leb_trans (s1 s2 s3 : string) :
  String.leb s1 s2 = true -> String.leb s2 s3 = true -> String.leb s1 s3 = true.
Proof.
  unfold String.leb. intros H1 H2.
  pose proof (string_compare_not_Gt_trans s1 s2 s3) as H.
  destruct (String.compare s1 s2); try discriminate;
    destruct (String.compare s2 s3); try discriminate;
    destruct (String.compare s1 s3); try reflexivity;
    exfalso; apply H; congruence.
Qed.

(** ** The listing: pages, order and content *)

Section ListingPages.

Variable regex_i : string -> string -> bool.

Lemma key_le_total (k : SortKey) (x y : Book) :
  key_le k x y = true \/ key_le k y x = true.
Proof.
  destruct k; simpl; try apply String.leb_total; rewrite !Z.leb_le; lia.
Qed.

Lemma key_le_trans (k : SortKey) (x y z : Book) :
  key_le k x y = true -> key_le k y z = true -> key_le k x z = true.
Proof.
  destruct k; simpl; try apply string_leb_trans;
    rewrite !Z.leb_le; apply Z.le_trans.
Qed.

Lemma books_order_total (q : BooksQuery) (x y : Book) :
  books_order q x y = true \/ books_order q y x = true.
Proof.
  unfold books_order.
  destruct (q_sortBy q), (q_sortOrder q); apply key_le_total.
Qed.

Lemma books_order_trans (q : BooksQuery) (x y z : Book) :
  books_order q x y = true -> books_order q y z = true -> books_order q x z = true.
Proof.
  unfold books_order.
  destruct (q_sortBy q), (q_sortOrder q); intros H1 H2;
    first [ exact (key_le_trans _ _ _ _ H1 H2) | exact (key_le_trans _ _ _ _ H2 H1) ].
Qed.

Lemma fetch_page_size (st : Store) (q : BooksQuery) :
  1 <= q_page q -> 1 <= q_limit q ->
  Z.of_nat (List.length (fetch_page regex_i st q))
  = Z.max 0 (Z.min (q_limit q) (count_books regex_i st q - (q_page q - 1) * q_limit q)).
Proof.
  intros Hp Hl. unfold fetch_page, count_books, books_skip.
  rewrite length_map, page_length, sort_by_length.
  assert (0 <= (q_page q - 1) * q_limit q) by nia.
  lia.
Qed.

(** X1. For a listing request without minRating, with page and limit at
    least 1: when the answer reports a next page the page is full; on the
    last page (currentPage = totalPages) it holds the remaining
    [totalBooks - (totalPages - 1) * limit] items, at least one; past the last
    page it is empty; and hasPrevPage is reported exactly when the page is
    not the first. *)
Theorem listBooks_page_sizes
    (st : Store) (q : BooksQuery) (user : User) (resp : BooksResponse) :
  1 <= q_page q ->
  1 <= q_limit q ->
  q_minRating q = None ->
  listBooks regex_i st q user = Json 200 resp ->
  let n := Z.of_nat (List.length (resp_books resp)) in
  let pg := resp_pagination resp in
  (hasNextPage pg = true -> n = q_limit q)
  /\ (currentPage pg = totalPages pg ->
      n = totalBooks pg - (totalPages pg - 1) * q_limit q /\ 1 <= n <= q_limit q)
  /\ (totalPages pg < currentPage pg -> n = 0)
  /\ (hasPrevPage pg = true <-> 1 < currentPage pg)
  /\ (totalPages pg = 0 <-> totalBooks pg = 0).
Proof.
  intros Hp Hl Hm H. unfold listBooks in H. inversion H; subst resp; clear H.
  cbn [resp_books resp_pagination hasNextPage hasPrevPage currentPage totalPages
       totalBooks].
  unfold rating_filter. rewrite Hm.
  rewrite (Permutation_length (rating_sort_perm q _)).
  rewrite (fetch_page_size st q Hp Hl).
  pose proof (Math_ceil_div (count_books regex_i st q) (q_limit q) Hl) as Hc.
  cbv zeta in Hc.
  set (pages := Js.Math_ceil _) in *.
  set (total := count_books regex_i st q) in *.
  assert (0 <= total) by (unfold total, count_books; lia).
  repeat split.
  - intros Hn. apply Z.ltb_lt in Hn. nia.
  - nia.
  - nia.
  - nia.
  - intros Hlt. nia.
  - intros Hprev. apply Z.ltb_lt in Hprev. exact Hprev.
  - intros Hprev. apply Z.ltb_lt. exact Hprev.
  - intros E. nia.
  - intros E. nia.
Qed.


(** X3. For page and limit at least 1, every book a listing returns is a stored, active book that meets the
    year bounds, the genre filter and the minRating of the request, and
    carries all the review documents that reference it. *)
Theorem listBooks_returns_matching_books
    (st : Store) (q : BooksQuery) (user : User) (resp : BooksResponse)
    (d : BookDoc) :
  1 <= q_page q ->
  1 <= q_limit q ->
  listBooks regex_i st q user = Json 200 resp ->
  In d (resp_books resp) ->
  In (doc d) (books st)
  /\ book_isActive (doc d) = true
  /\ (forall y, q_minYear q = Some y -> y <= publishedYear (doc d))
  /\ (forall y, q_maxYear q = Some y -> publishedYear (doc d) <= y)
  /\ (forall g, q_genre q = Some g -> g <> "" -> g <> "all" -> genre (doc d) = g)
  /\ (forall m, q_minRating q = Some m -> (m <= averageRating d)%Q)
  /\ book_reviews d = Some (populate_reviews st (doc d)).
Proof.
  intros _ _ H Hin. unfold listBooks in H. inversion H; subst resp; clear H.
  cbn [resp_books] in Hin.
  apply (Permutation_in _ (rating_sort_perm q _)) in Hin.
  assert (Hpage : In d (fetch_page regex_i st q)
                  /\ forall m, q_minRating q = Some m -> (m <= averageRating d)%Q).
  { unfold rating_filter in Hin. destruct (q_minRating q) as [m|].
    - apply filter_In in Hin. destruct Hin as [H1 H2].
      split; [exact H1|]. intros m' E. inversion E; subst m'.
      apply Qle_bool_iff. exact H2.
    - split; [exact Hin|]. discriminate. }
  destruct Hpage as [Hpage Hrating].
  unfold fetch_page in Hpage. apply in_map_iff in Hpage.
  destruct Hpage as [b [E Hb]]. subst d. cbn [doc book_reviews].
  apply In_firstn, In_skipn in Hb. apply sort_by_In in Hb.
  apply filter_In in Hb. destruct Hb as [Hb Hq].
  unfold books_query in Hq.
  repeat (apply andb_true_iff in Hq; destruct Hq as [Hq ?]).
  repeat split; try assumption.
  - intros y E. rewrite E in *. simpl in *. apply Z.leb_le. assumption.
  - intros y E. rewrite E in *. simpl in *. apply Z.leb_le. assumption.
  - intros g E Hg Hall. rewrite E in *. simpl in *.
    apply String.eqb_neq in Hg, Hall. rewrite Hg, Hall in *. simpl in *.
    apply String.eqb_eq. assumption.
Qed.

(** X4. For page and limit at least 1 and every sort key but averageRating,
    the books of a listing come
    out in the requested order of that key: non-decreasing for 'asc',
    non-increasing for 'desc' (titles and authors by code-unit order). *)
Theorem listBooks_sorted_by_key
    (st : Store) (q : BooksQuery) (user : User) (resp : BooksResponse) :
  1 <= q_page q ->
  1 <= q_limit q ->
  q_sortBy q <> SortAverageRating ->
  listBooks regex_i st q user = Json 200 resp ->
  match q_sortOrder q with
  | Asc =>
      StronglySorted (fun a b => key_le (q_sortBy q) (doc a) (doc b) = true)
        (resp_books resp)
  | Desc =>
      StronglySorted (fun a b => key_le (q_sortBy q) (doc b) (doc a) = true)
        (resp_books resp)
  end.
Proof.
  intros _ _ Hk H. unfold listBooks in H. inversion H; subst resp; clear H.
  cbn [resp_books].
  assert (Hs : StronglySorted (fun a b => books_order q (doc a) (doc b) = true)
                 (rating_sort q (rating_filter q (fetch_page regex_i st q)))).
  { assert (E : rating_sort q (rating_filter q (fetch_page regex_i st q))
                = rating_filter q (fetch_page regex_i st q)).
    { unfold rating_sort. destruct (q_sortBy q); congruence. }
    rewrite E.
    assert (Hf : StronglySorted (fun a b => books_order q (doc a) (doc b) = true)
                   (fetch_page regex_i st q)).
    { unfold fetch_page.
      apply (StronglySorted_map
               (fun b => mkBookDoc b (Some (populate_reviews st b)))
               (fun a b => books_order q (doc a) (doc b) = true)).
      cbn [doc]. apply StronglySorted_firstn, StronglySorted_skipn.
      apply sort_by_sorted; [apply books_order_total | apply books_order_trans]. }
    unfold rating_filter. destruct (q_minRating q); [|exact Hf].
    apply StronglySorted_filter. exact Hf. }
  unfold books_order in Hs.
  destruct (q_sortBy q), (q_sortOrder q); try congruence; exact Hs.
Qed.

End ListingPages.

Lemma listBooks_page_sizes_witness :
  exists resp,
    listBooks Demo.regex Demo.two_books (Sample.by_title 1) Demo.alice = Json 200 resp
    /\ let n := Z.of_nat (List.length (resp_books resp)) in
       let pg := resp_pagination resp in
       (hasNextPage pg = true -> n = q_limit (Sample.by_title 1))
       /\ (currentPage pg = totalPages pg ->
           n = totalBooks pg - (totalPages pg - 1) * q_limit (Sample.by_title 1)
           /\ 1 <= n <= q_limit (Sample.by_title 1))
       /\ (totalPages pg < currentPage pg -> n = 0)
       /\ (hasPrevPage pg = true <-> 1 < currentPage pg)
       /\ (totalPages pg = 0 <-> totalBooks pg = 0).
Proof.
  eexists. split; [reflexivity|].
  apply (listBooks_page_sizes Demo.regex Demo.two_books (Sample.by_title 1) Demo.alice).
  - simpl. lia.
  - simpl. lia.
  - reflexivity.
  - reflexivity.
Defined.


Lemma listBooks_returns_matching_books_witness :
  exists resp,
    listBooks Demo.regex Demo.two_books (Sample.by_title 1) Demo.alice = Json 200 resp
    /\ In Sample.dune_doc (resp_books resp)
    /\ In (doc Sample.dune_doc) (books Demo.two_books)
    /\ book_isActive (doc Sample.dune_doc) = true
    /\ (forall y, q_minYear (Sample.by_title 1) = Some y
                  -> y <= publishedYear (doc Sample.dune_doc))
    /\ (forall y, q_maxYear (Sample.by_title 1) = Some y
                  -> publishedYear (doc Sample.dune_doc) <= y)
    /\ (forall g, q_genre (Sample.by_title 1) = Some g -> g <> "" -> g <> "all"
                  -> genre (doc Sample.dune_doc) = g)
    /\ (forall m, q_minRating (Sample.by_title 1) = Some m
                  -> (m <= averageRating Sample.dune_doc)%Q)
    /\ book_reviews Sample.dune_doc
       = Some (populate_reviews Demo.two_books (doc Sample.dune_doc)).
Proof.
  eexists. split; [reflexivity|].
  split; [left; vm_compute; reflexivity|].
  eapply (listBooks_returns_matching_books Demo.regex Demo.two_books
            (Sample.by_title 1) Demo.alice).
  - simpl. lia.
  - simpl. lia.
  - reflexivity.
  - left. vm_compute. reflexivity.
Defined.

Lemma listBooks_sorted_by_key_witness :
  exists resp,
    listBooks Demo.regex Demo.two_books
      (mkBooksQuery 1 12 None None SortTitle Asc None None None None) Demo.alice
    = Json 200 resp
    /\ StronglySorted (fun a b => key_le SortTitle (doc a) (doc b) = true)
         (resp_books resp).
Proof.
  eexists. split; [reflexivity|].
  apply (listBooks_sorted_by_key Demo.regex Demo.two_books
           (mkBooksQuery 1 12 None None SortTitle Asc None None None None)
           Demo.alice).
  - simpl. lia.
  - simpl. lia.
  - simpl. discriminate.
  - reflexivity.
Defined.

(** ** Who may write *)

(** X5. The auth middleware lets a request through only when its
    Authorization header, with the first 'Bearer ' removed, is a non-empty
    token that verifies to the id of a stored user whose account is active;
    that user becomes [req.user]. *)
Theorem auth_accepts_only_active_token_holder
    (jwt_verify : string -> JwtResult) (st : Store)
    (authorization : option string) (u : User) :
  auth jwt_verify st authorization = Next u ->
  exists header,
    authorization = Some header
    /\ Js.remove_first "Bearer " header <> ""
    /\ jwt_verify (Js.remove_first "Bearer " header) = Decoded (user_id u)
    /\ In u (users st)
    /\ user_isActive u = true.
Proof.
  unfold auth. destruct authorization as [header|]; simpl; [|discriminate].
  destruct (Js.remove_first "Bearer " header =? "")%string eqn:E; [discriminate|].
  apply String.eqb_neq in E.
  destruct (jwt_verify (Js.remove_first "Bearer " header)) as [id| | |] eqn:Hv;
    try discriminate.
  destruct (User_findById st id) as [user|] eqn:Hf; [|discriminate].
  destruct (user_isActive user) eqn:Ha; [|discriminate].
  intros H. inversion H; subst user; clear H.
  unfold User_findById in Hf. apply find_some in Hf. destruct Hf as [Hin Hid].
  apply oid_eqb_eq in Hid. subst id.
  exists header. auto.
Qed.

Lemma auth_accepts_only_active_token_holder_witness :
  exists header,
    Some "Bearer token-alice" = Some header
    /\ Js.remove_first "Bearer " header <> ""
    /\ Demo.jwt (Js.remove_first "Bearer " header) = Decoded (user_id Demo.alice)
    /\ In Demo.alice (users Demo.empty)
    /\ user_isActive Demo.alice = true.
Proof.
  apply (auth_accepts_only_active_token_holder Demo.jwt Demo.empty
           (Some "Bearer token-alice") Demo.alice).
  vm_compute. reflexivity.
Defined.

Section Writes.

Variable isbn_match : string -> bool.
Variable currentYear : Z.

(** X6. A caller who does not own an active book with the given id cannot
    change anything through PUT or DELETE /api/books/:id: both leave the
    store as it was and answer 404 (no such active book) or 403. *)
Theorem book_writes_need_ownership
    (st : Store) (user : User) (id : ObjectId) (body : BookBody) :
  (forall b, Book_findOne_active st id = Some b -> addedBy b <> user_id user) ->
  (updateBook isbn_match currentYear st user id body
     = (st, Failure 404 "Book not found")
   \/ updateBook isbn_match currentYear st user id body
     = (st, Failure 403 "Not authorized to update this book"))
  /\ (deleteBook st user id = (st, Failure 404 "Book not found")
      \/ deleteBook st user id
         = (st, Failure 403 "Not authorized to delete this book")).
Proof.
  intros Hown. unfold updateBook, deleteBook.
  destruct (Book_findOne_active st id) as [b|]; [|auto].
  specialize (Hown b eq_refl). apply String.eqb_neq in Hown.
  rewrite Hown. simpl. auto.
Qed.

(** X7. A caller who is not the author of an active review with the given
    id cannot change it through PUT or DELETE /api/reviews/:id: both leave
    the store as it was and answer 404 or 403. *)
Theorem review_writes_need_authorship
    (st : Store) (user : User) (id : ObjectId) (body : ReviewBody) (now : Date) :
  (forall r, Review_findOne_active st id = Some r -> userId r <> user_id user) ->
  (updateReview st user id body now = (st, Failure 404 "Review not found")
   \/ updateReview st user id body now
      = (st, Failure 403 "Not authorized to update this review"))
  /\ (deleteReview st user id = (st, Failure 404 "Review not found")
      \/ deleteReview st user id
         = (st, Failure 403 "Not authorized to delete this review")).
Proof.
  intros Hown. unfold updateReview, deleteReview.
  destruct (Review_findOne_active st id) as [r|]; [|auto].
  specialize (Hown r eq_refl). apply String.eqb_neq in Hown.
  rewrite Hown. simpl. auto.
Qed.

End Writes.

Lemma book_writes_need_ownership_witness :
  (updateBook Demo.isbn Demo.year Demo.empty Demo.bob "b1" Demo.give_away
     = (Demo.empty, Failure 404 "Book not found")
   \/ updateBook Demo.isbn Demo.year Demo.empty Demo.bob "b1" Demo.give_away
     = (Demo.empty, Failure 403 "Not authorized to update this book"))
  /\ (deleteBook Demo.empty Demo.bob "b1" = (Demo.empty, Failure 404 "Book not found")
      \/ deleteBook Demo.empty Demo.bob "b1"
         = (Demo.empty, Failure 403 "Not authorized to delete this book")).
Proof.
  apply (book_writes_need_ownership Demo.isbn Demo.year Demo.empty Demo.bob "b1"
           Demo.give_away).
  intros b Hb. vm_compute in Hb. inversion Hb. vm_compute. discriminate.
Defined.

Lemma review_writes_need_authorship_witness :
  (updateReview Demo.after_delete Demo.bob "r1" Demo.bob_again 500
     = (Demo.after_delete, Failure 404 "Review not found")
   \/ updateReview Demo.after_delete Demo.bob "r1" Demo.bob_again 500
      = (Demo.after_delete, Failure 403 "Not authorized to update this review"))
  /\ (deleteReview Demo.after_delete Demo.bob "r1"
      = (Demo.after_delete, Failure 404 "Review not found")
      \/ deleteReview Demo.after_delete Demo.bob "r1"
         = (Demo.after_delete, Failure 403 "Not authorized to delete this review")).
Proof.
  apply (review_writes_need_authorship Demo.after_delete Demo.bob "r1"
           Demo.bob_again 500).
  intros r Hr. vm_compute in Hr. inversion Hr. vm_compute. discriminate.
Defined.

(** ** Trimming *)







(** ** Validation chains against the schema validators *)




Section BookValidation.

Variable isbn_match : string -> bool.
Variable currentYear : Z.


End BookValidation.


(** ** Deleting a book *)

Lemma find_app {A : Type} (p : A -> bool) (l l' : list A) :
  find p (l ++ l') = match find p l with Some x => Some x | None => find p l' end.
Proof.
  induction l as [|x l IH]; simpl; [reflexivity|].
  destruct (p x); [reflexivity | exact IH].
Qed.

Lemma find_none_iff {A : Type} (p : A -> bool) (l : list A) :
  (forall x, In x l -> p x = false) -> find p l = None.
Proof.
  induction l as [|x l IH]; simpl; intros H; [reflexivity|].
  rewrite (H x (or_introl eq_refl)). apply IH. intros y Hy. apply H. right. exact Hy.
Qed.

Lemma update_book_hidden (id : ObjectId) (f : Book -> Book) (l : list Book) :
  NoDup (map book_id l) ->
  (forall b, book_id (f b) = book_id b) ->
  (forall b, book_isActive (f b) = false) ->
  find (fun b => oid_eqb (book_id b) id && book_isActive b) (update_book id f l) = None.
Proof.
  intros Hnd Hid Hact. induction l as [|b l IH]; simpl; [reflexivity|].
  inversion Hnd as [|x xs Hn Hnd']; subst.
  destruct (oid_eqb (book_id b) id) eqn:E; simpl.
  - rewrite Hact, andb_false_r.
    apply find_none_iff. intros x Hx.
    apply oid_eqb_eq in E. subst id.
    destruct (oid_eqb (book_id x) (book_id b)) eqn:E'; [|reflexivity].
    apply oid_eqb_eq in E'. exfalso. apply Hn. rewrite <- E'. apply in_map. exact Hx.
  - rewrite E. simpl. apply IH. exact Hnd'.
Qed.

Lemma update_book_others (id : ObjectId) (f : Book -> Book) (l : list Book) (b : Book) :
  In b l -> book_id b <> id -> In b (update_book id f l).
Proof.
  intros Hin Hne. induction l as [|a l IH]; simpl in *; [contradiction|].
  destruct (oid_eqb (book_id a) id) eqn:E.
  - destruct Hin as [Ha|Hin]; [|right; exact Hin].
    subst a. apply oid_eqb_eq in E. contradiction.
  - destruct Hin as [Ha|Hin]; [left; exact Ha | right; apply IH; exact Hin].
Qed.

(** X10. After a successful DELETE /api/books/:id (book ids being unique):
    no active book with that id is left, so every lookup by
    [{ _id, isActive: true }] misses it; every review that references the
    book is inactive and the review listing of the book is empty; users,
    other books and the reviews of other books are as before. *)
Theorem deleteBook_hides_book_and_reviews
    (st st' : Store) (user : User) (id : ObjectId) :
  NoDup (map book_id (books st)) ->
  deleteBook st user id = (st', Json 200 tt) ->
  Book_findOne_active st' id = None
  /\ (forall r, In r (reviews st') -> bookId r = id -> review_isActive r = false)
  /\ active_reviews_of_book st' id = []
  /\ users st' = users st
  /\ (forall b, In b (books st) -> book_id b <> id -> In b (books st'))
  /\ (forall r, In r (reviews st) -> bookId r <> id -> In r (reviews st'))
  /\ List.length (reviews st') = List.length (reviews st).
Proof.
  intros Hnd. unfold deleteBook.
  destruct (Book_findOne_active st id) as [b|]; [|discriminate].
  destruct (negb _); [discriminate|].
  intros H. inversion H; subst st'; clear H.
  unfold Book_findOne_active, active_reviews_of_book. cbn [books reviews users].
  assert (Hrev : forall r,
             In r (map (fun r =>
                          if oid_eqb (bookId r) id
                          then mkReview (review_id r) (bookId r) (userId r) (rating r)
                                 (reviewText r) (review_title r) (likes r) false
                                 (editedAt r) (review_createdAt r)
                          else r) (reviews st)) ->
             bookId r = id -> review_isActive r = false).
  { intros r Hr Hb. apply in_map_iff in Hr. destruct Hr as [r0 [E Hr0]].
    destruct (oid_eqb (bookId r0) id) eqn:E0; subst r; [reflexivity|].
    apply oid_eqb_neq in E0. contradiction. }
  split; [apply update_book_hidden; auto|].
  split; [exact Hrev|].
  split.
  { match goal with |- filter ?p ?l = [] => 
      destruct (filter p l) as [|r rs] eqn:E; [reflexivity|] end.
    assert (Hin : In r (r :: rs)) by (left; reflexivity).
    rewrite <- E in Hin. apply filter_In in Hin. destruct Hin as [Hin Hp].
    apply andb_true_iff in Hp. destruct Hp as [Hb Ha].
    apply oid_eqb_eq in Hb. rewrite (Hrev r Hin Hb) in Ha. discriminate. }
  split; [reflexivity|].
  split; [intros b0 Hb0 Hne; apply update_book_others; assumption|].
  split.
  - intros r Hr Hne. apply in_map_iff. exists r. split; [|exact Hr].
    apply oid_eqb_neq in Hne. rewrite Hne. reflexivity.
  - apply length_map.
Qed.

Lemma deleteBook_hides_book_and_reviews_witness :
  let st := mkStore [Demo.alice; Demo.bob] [Demo.dune; Demo.emma]
              (reviews Demo.two_books) in
  let st' := fst (deleteBook st Demo.alice "b1") in
  Book_findOne_active st' "b1" = None
  /\ (forall r, In r (reviews st') -> bookId r = "b1" -> review_isActive r = false)
  /\ active_reviews_of_book st' "b1" = []
  /\ users st' = users st
  /\ (forall b, In b (books st) -> book_id b <> "b1" -> In b (books st'))
  /\ (forall r, In r (reviews st) -> bookId r <> "b1" -> In r (reviews st'))
  /\ List.length (reviews st') = List.length (reviews st).
Proof.
  apply (deleteBook_hides_book_and_reviews
           (mkStore [Demo.alice; Demo.bob] [Demo.dune; Demo.emma]
              (reviews Demo.two_books))
           _ Demo.alice "b1").
  - vm_compute. nodup_closed.
  - vm_compute. reflexivity.
Defined.

(** ** Creating and editing a review *)





(** ** Rating counters and averages *)

Lemma counter_increment (k j : Z) (d : RatingDistribution) :
  counter k (increment j d)
  = option_map (fun c => if k =? j then c + 1 else c) (counter k d).
Proof.
  unfold counter, increment.
  induction d as [|[a c] d IH]; simpl; [reflexivity|].
  destruct (a =? j) eqn:Ej; simpl; destruct (a =? k) eqn:Ek; simpl; try exact IH.
  - apply Z.eqb_eq in Ej, Ek. subst. rewrite Z.eqb_refl. reflexivity.
  - apply Z.eqb_eq in Ek. subst a. rewrite Ej. reflexivity.
Qed.

Lemma increment_keys (j : Z) (d : RatingDistribution) :
  map fst (increment j d) = map fst d.
Proof.
  unfold increment. rewrite map_map. apply map_ext.
  intros [a c]. simpl. destruct (a =? j); reflexivity.
Qed.

(** Counting a list of ratings into a distribution. *)
Lemma fold_increment {A : Type} (g : A -> Z) (l : list A) (d : RatingDistribution) (k : Z) :
  map fst (fold_left (fun d r => increment (g r) d) l d) = map fst d
  /\ counter k (fold_left (fun d r => increment (g r) d) l d)
     = option_map (fun c => c + count_rating k (map g l)) (counter k d).
Proof.
  revert d. induction l as [|x l IH]; intros d; simpl.
  - split; [reflexivity|]. unfold count_rating. simpl.
    destruct (counter k d); simpl; [rewrite Z.add_0_r|]; reflexivity.
  - destruct (IH (increment (g x) d)) as [H1 H2].
    split; [rewrite H1; apply increment_keys|].
    rewrite H2, counter_increment. unfold count_rating. simpl.
    destruct (counter k d) as [c|]; simpl; [|reflexivity].
    rewrite (Z.eqb_sym k (g x)).
    destruct (g x =? k); simpl; f_equal; lia.
Qed.

Lemma count_rating_total (ratings : list Z) :
  Forall (fun x => 1 <= x <= 5) ratings ->
  count_rating 1 ratings + count_rating 2 ratings + count_rating 3 ratings
  + count_rating 4 ratings + count_rating 5 ratings
  = Z.of_nat (List.length ratings).
Proof.
  unfold count_rating. induction 1 as [|x l Hx Hl IH]; [reflexivity|].
  assert (E : x = 1 \/ x = 2 \/ x = 3 \/ x = 4 \/ x = 5) by lia.
  destruct E as [E|[E|[E|[E|E]]]]; subst x; cbn -[Z.of_nat Z.add];
    rewrite ?Nat2Z.inj_succ; lia.
Qed.

(** X13. The ratingDistribution of a single-book answer has exactly the keys
    1 to 5, and the counter of each key is the number of reviews in the
    answer with that rating; when all ratings lie in 1..5 the five counters
    add up to the book's reviewCount. *)
Theorem getBook_ratingDistribution_counts
    (st : Store) (id : ObjectId) (req_user : option User) (resp : BookResponse)
    (rs : list PopReview) :
  getBook st id req_user = Json 200 resp ->
  book_reviews (resp_book resp) = Some rs ->
  let ratings := map (fun r => rating (pr_review r)) rs in
  let d := resp_ratingDistribution resp in
  map fst d = [1; 2; 3; 4; 5]
  /\ (forall k, 1 <= k <= 5 -> counter k d = Some (count_rating k ratings))
  /\ (Forall (fun x => 1 <= x <= 5) ratings ->
      exists c1 c2 c3 c4 c5,
        d = [(1, c1); (2, c2); (3, c3); (4, c4); (5, c5)]
        /\ c1 + c2 + c3 + c4 + c5 = reviewCount (resp_book resp)).
Proof.
  unfold getBook.
  destruct (Book_findOne_active st id) as [b|]; [|discriminate].
  destruct (own_review req_user (populate_reviews_sorted st b)) as [e|mine];
    [discriminate|].
  intros H. inversion H; subst resp; clear H.
  cbn [resp_book book_reviews resp_ratingDistribution].
  intros E. inversion E; subst rs; clear E. cbv zeta.
  set (rs := populate_reviews_sorted st b).
  set (d := fold_left (fun d r => increment (rating (pr_review r)) d) rs
              emptyDistribution).
  assert (Hkeys : map fst d = [1; 2; 3; 4; 5]).
  { unfold d.
    destruct (fold_increment (fun r => rating (pr_review r)) rs emptyDistribution 0)
      as [H _]. exact H. }
  assert (Hcount : forall k, 1 <= k <= 5 ->
             counter k d = Some (count_rating k (map (fun r => rating (pr_review r)) rs))).
  { intros k Hk. unfold d.
    destruct (fold_increment (fun r => rating (pr_review r)) rs emptyDistribution k)
      as [_ H]. rewrite H.
    assert (E : k = 1 \/ k = 2 \/ k = 3 \/ k = 4 \/ k = 5) by lia.
    destruct E as [E|[E|[E|[E|E]]]]; subst k; reflexivity. }
  split; [exact Hkeys|]. split; [exact Hcount|].
  intros Hall.
  destruct d as [|[k1 c1] [|[k2 c2] [|[k3 c3] [|[k4 c4] [|[k5 c5] [|x d]]]]]];
    simpl in Hkeys; try discriminate.
  inversion Hkeys; subst.
  exists c1, c2, c3, c4, c5. split; [reflexivity|].
  pose proof (Hcount 1 ltac:(lia)) as H1. pose proof (Hcount 2 ltac:(lia)) as H2.
  pose proof (Hcount 3 ltac:(lia)) as H3. pose proof (Hcount 4 ltac:(lia)) as H4.
  pose proof (Hcount 5 ltac:(lia)) as H5.
  unfold counter in H1, H2, H3, H4, H5. simpl in H1, H2, H3, H4, H5.
  inversion H1. inversion H2. inversion H3. inversion H4. inversion H5.
  unfold reviewCount. cbn [book_reviews].
  rewrite <- (length_map (fun r => rating (pr_review r)) rs).
  apply count_rating_total. exact Hall.
Qed.

Lemma getBook_ratingDistribution_counts_witness :
  exists resp rs,
    getBook Demo.after_delete "b1" None = Json 200 resp
    /\ book_reviews (resp_book resp) = Some rs
    /\ let ratings := map (fun r => rating (pr_review r)) rs in
       let d := resp_ratingDistribution resp in
       map fst d = [1; 2; 3; 4; 5]
       /\ (forall k, 1 <= k <= 5 -> counter k d = Some (count_rating k ratings))
       /\ (Forall (fun x => 1 <= x <= 5) ratings ->
           exists c1 c2 c3 c4 c5,
             d = [(1, c1); (2, c2); (3, c3); (4, c4); (5, c5)]
             /\ c1 + c2 + c3 + c4 + c5 = reviewCount (resp_book resp)).
Proof.
  do 2 eexists. split; [vm_compute; reflexivity|]. split; [reflexivity|].
  eapply (getBook_ratingDistribution_counts Demo.after_delete "b1" None).
  - vm_compute. reflexivity.
  - reflexivity.
Defined.

Lemma fold_left_sum {A : Type} (g : A -> Z) (l : list A) (a : Z) :
  fold_left (fun acc r => acc + g r) l a = a + sum_ratings (map g l).
Proof.
  revert a. induction l as [|x l IH]; intros a; simpl; [lia|].
  rewrite IH. unfold sum_ratings. lia.
Qed.

Lemma sum_ratings_perm (l l' : list Z) :
  Permutation l l' -> sum_ratings l = sum_ratings l'.
Proof.
  unfold sum_ratings. induction 1; simpl; lia.
Qed.

Lemma sum_ratings_bounds (l : list Z) :
  Forall (fun x => 1 <= x <= 5) l ->
  Z.of_nat (List.length l) <= sum_ratings l <= 5 * Z.of_nat (List.length l).
Proof.
  unfold sum_ratings. induction 1 as [|x l Hx Hl IH]; [simpl; lia|].
  cbn -[Z.of_nat Z.mul]. rewrite Nat2Z.inj_succ. lia.
Qed.

(** [Math.round(sum / n * 10)] as an integer quotient. *)
Lemma Math_round_tenths (s n : Z) :
  0 < n ->
  Js.Math_round ((inject_Z s / inject_Z n) * 10)%Q = (20 * s + n) / (2 * n).
Proof.
  intros Hn. unfold Js.Math_round. rewrite Zdiv_Qdiv. apply Qfloor_comp.
  rewrite inject_Z_plus, !inject_Z_mult.
  assert (Hq : ~ (inject_Z n == 0)%Q).
  { unfold Qeq. simpl. lia. }
  field. exact Hq.
Qed.

Lemma averageRating_some (b : Book) (rs : list PopReview) :
  rs <> [] ->
  averageRating (mkBookDoc b (Some rs))
  = (inject_Z
       ((20 * sum_ratings (map (fun r => rating (pr_review r)) rs)
         + Z.of_nat (List.length rs))
        / (2 * Z.of_nat (List.length rs)))
     / 10)%Q.
Proof.
  intros Hne. unfold averageRating. cbn [book_reviews].
  destruct rs as [|r rs]; [contradiction|].
  rewrite Math_round_tenths by (simpl; lia).
  rewrite fold_left_sum. reflexivity.
Qed.

(** X14. For a book document with at least one populated review and all
    ratings in 1..5, averageRating is k/10 for the integer k nearest to
    ten times the mean rating (halves going up), and lies between 1
    and 5. *)
Theorem averageRating_is_rounded_mean (d : BookDoc) (rs : list PopReview) :
  book_reviews d = Some rs ->
  rs <> [] ->
  Forall (fun r => 1 <= rating (pr_review r) <= 5) rs ->
  let s := sum_ratings (map (fun r => rating (pr_review r)) rs) in
  let n := Z.of_nat (List.length rs) in
  exists k,
    averageRating d = (inject_Z k / 10)%Q
    /\ 2 * n * k <= 20 * s + n < 2 * n * (k + 1)
    /\ 10 <= k <= 50
    /\ (1 <= averageRating d <= 5)%Q.
Proof.
  intros Hd Hne Hall s n. destruct d as [b o]. cbn [book_reviews] in Hd. subst o.
  rewrite (averageRating_some b rs Hne). fold s. fold n.
  assert (Hn : 0 < n).
  { unfold n. destruct rs; [contradiction|simpl; lia]. }
  assert (Hs : n <= s <= 5 * n).
  { unfold s, n. rewrite <- (length_map (fun r => rating (pr_review r)) rs).
    apply sum_ratings_bounds. apply Forall_map. exact Hall. }
  set (k := (20 * s + n) / (2 * n)).
  pose proof (Z.div_mod (20 * s + n) (2 * n) ltac:(lia)) as Hdm.
  pose proof (Z.mod_pos_bound (20 * s + n) (2 * n) ltac:(lia)) as Hb.
  fold k in Hdm.
  assert (Hk : 10 <= k <= 50) by nia.
  exists k. split; [reflexivity|].
  split; [nia|]. split; [exact Hk|].
  unfold Qle, Qdiv, Qmult, Qinv. simpl. lia.
Qed.

Lemma averageRating_is_rounded_mean_witness :
  let rs := populate_reviews Demo.after_delete Demo.dune in
  let d := mkBookDoc Demo.dune (Some rs) in
  let s := sum_ratings (map (fun r => rating (pr_review r)) rs) in
  let n := Z.of_nat (List.length rs) in
  exists k,
    averageRating d = (inject_Z k / 10)%Q
    /\ 2 * n * k <= 20 * s + n < 2 * n * (k + 1)
    /\ 10 <= k <= 50
    /\ (1 <= averageRating d <= 5)%Q.
Proof.
  apply (averageRating_is_rounded_mean
           (mkBookDoc Demo.dune (Some (populate_reviews Demo.after_delete Demo.dune)))
           (populate_reviews Demo.after_delete Demo.dune)).
  - reflexivity.
  - vm_compute. discriminate.
  - vm_compute. repeat constructor; discriminate.
Defined.

Lemma review_statistics_some (st : Store) (id : ObjectId) :
  active_reviews_of_book st id <> [] ->
  review_statistics st id
  = (inject_Z
       ((20 * sum_ratings (map rating (active_reviews_of_book st id))
         + Z.of_nat (List.length (active_reviews_of_book st id)))
        / (2 * Z.of_nat (List.length (active_reviews_of_book st id))))
     / 10)%Q.
Proof.
  unfold review_statistics, active_reviews_of_book.
  destruct (filter _ (reviews st)) as [|r rs] eqn:E; [contradiction|]. intros _.
  rewrite Math_round_tenths by (simpl; lia).
  rewrite fold_left_sum. reflexivity.
Qed.

Lemma count_rating_perm (k : Z) (l l' : list Z) :
  Permutation l l' -> count_rating k l = count_rating k l'.
Proof.
  unfold count_rating. induction 1; simpl.
  - reflexivity.
  - destruct (x =? k); simpl; lia.
  - destruct (x =? k), (y =? k); reflexivity.
  - lia.
Qed.

(** A distribution over the keys 1 to 5 is fixed by its counters. *)
Lemma distribution_ext (d d' : RatingDistribution) :
  map fst d = [1; 2; 3; 4; 5] -> map fst d' = [1; 2; 3; 4; 5] ->
  (forall k, 1 <= k <= 5 -> counter k d = counter k d') ->
  d = d'.
Proof.
  intros H H' Hc.
  destruct d as [|[k1 c1] [|[k2 c2] [|[k3 c3] [|[k4 c4] [|[k5 c5] [|x d]]]]]];
    simpl in H; try discriminate.
  destruct d' as [|[j1 a1] [|[j2 a2] [|[j3 a3] [|[j4 a4] [|[j5 a5] [|y d']]]]]];
    simpl in H'; try discriminate.
  inversion H; inversion H'; subst.
  pose proof (Hc 1 ltac:(lia)) as E1. pose proof (Hc 2 ltac:(lia)) as E2.
  pose proof (Hc 3 ltac:(lia)) as E3. pose proof (Hc 4 ltac:(lia)) as E4.
  pose proof (Hc 5 ltac:(lia)) as E5.
  unfold counter in E1, E2, E3, E4, E5. simpl in E1, E2, E3, E4, E5.
  congruence.
Qed.

(** X15. When no review of an active book is soft-deleted, the
    averageRating, the reviewCount and the ratingDistribution of the
    single-book answer equal the averageRating, the totalReviews and the
    ratingDistribution of the statistics block of the book's review listing,
    whatever page of the listing is asked for. *)
Theorem book_average_agrees_with_statistics
    (st : Store) (id : ObjectId) (req_user : option User) (q : ReviewsQuery)
    (resp : BookResponse) :
  (forall r, In r (reviews st) -> bookId r = id -> review_isActive r = true) ->
  getBook st id req_user = Json 200 resp ->
  exists listing,
    listBookReviews st id q = Json 200 listing
    /\ averageRating (resp_book resp) = stat_averageRating (brr_statistics listing)
    /\ reviewCount (resp_book resp) = stat_totalReviews (brr_statistics listing)
    /\ resp_ratingDistribution resp
       = stat_ratingDistribution (brr_statistics listing).
Proof.
  intros Hact. unfold getBook.
  destruct (Book_findOne_active st id) as [b|] eqn:Hb; [|discriminate].
  destruct (own_review req_user (populate_reviews_sorted st b)) as [e|mine];
    [discriminate|].
  intros H. inversion H; subst resp; clear H.
  eexists. split; [reflexivity|].
  cbn [resp_book resp_ratingDistribution brr_statistics stat_averageRating
       stat_totalReviews stat_ratingDistribution].
  assert (Hid : book_id b = id).
  { unfold Book_findOne_active in Hb. apply find_some in Hb.
    destruct Hb as [_ Hp]. apply andb_true_iff in Hp. destruct Hp as [Hp _].
    apply oid_eqb_eq. exact Hp. }
  assert (Hsame : active_reviews_of_book st id = reviews_of st b).
  { unfold active_reviews_of_book, reviews_of. rewrite Hid.
    apply filter_ext_in. intros r Hr.
    destruct (oid_eqb (bookId r) id) eqn:E; [|reflexivity].
    apply oid_eqb_eq in E. rewrite (Hact r Hr E). reflexivity. }
  assert (Hperm : Permutation (populate_reviews_sorted st b)
                    (map (populate_userId st) (reviews_of st b))).
  { unfold populate_reviews_sorted, populate_reviews. apply sort_by_perm. }
  assert (Hratings : Permutation
                       (map (fun r => rating (pr_review r)) (populate_reviews_sorted st b))
                       (map rating (active_reviews_of_book st id))).
  { rewrite Hsame.
    apply perm_trans with
      (map (fun r => rating (pr_review r)) (map (populate_userId st) (reviews_of st b))).
    - apply Permutation_map. exact Hperm.
    - rewrite map_map. apply Permutation_refl. }
  assert (Hlen : List.length (populate_reviews_sorted st b)
                 = List.length (active_reviews_of_book st id)).
  { pose proof (Permutation_length Hratings) as E. rewrite !length_map in E. exact E. }
  split; [|split].
  - destruct (populate_reviews_sorted st b) as [|r rs] eqn:E.
    + unfold averageRating, review_statistics. cbn [book_reviews].
      fold (active_reviews_of_book st id).
      destruct (active_reviews_of_book st id); [reflexivity|discriminate].
    + rewrite averageRating_some by discriminate.
      rewrite review_statistics_some.
      * rewrite (sum_ratings_perm _ _ Hratings), Hlen. reflexivity.
      * intros E'. rewrite E' in Hlen. discriminate.
  - unfold reviewCount. cbn [book_reviews]. rewrite Hlen. reflexivity.
  - destruct (fold_increment (fun r => rating (pr_review r))
                (populate_reviews_sorted st b) emptyDistribution 0) as [K1 _].
    destruct (fold_increment rating (active_reviews_of_book st id)
                emptyDistribution 0) as [K2 _].
    apply distribution_ext; [exact K1 | exact K2 |].
    intros k Hk.
    destruct (fold_increment (fun r => rating (pr_review r))
                (populate_reviews_sorted st b) emptyDistribution k) as [_ C1].
    destruct (fold_increment rating (active_reviews_of_book st id)
                emptyDistribution k) as [_ C2].
    rewrite C1, C2, (count_rating_perm k _ _ Hratings). reflexivity.
Qed.

Lemma book_average_agrees_with_statistics_witness :
  exists resp listing,
    getBook Demo.two_books "b1" None = Json 200 resp
    /\ listBookReviews Demo.two_books "b1" (mkReviewsQuery 1 10 ByCreatedAt Desc)
       = Json 200 listing
    /\ averageRating (resp_book resp) = stat_averageRating (brr_statistics listing)
    /\ reviewCount (resp_book resp) = stat_totalReviews (brr_statistics listing)
    /\ resp_ratingDistribution resp
       = stat_ratingDistribution (brr_statistics listing).
Proof.
  eexists.
  assert (H : getBook Demo.two_books "b1" None = Json 200 _)
    by (vm_compute; reflexivity).
  destruct (book_average_agrees_with_statistics Demo.two_books "b1" None
              (mkReviewsQuery 1 10 ByCreatedAt Desc) _
              ltac:(intros r Hr Hb; vm_compute in Hr;
                    destruct Hr as [Hr|[Hr|[]]]; subst r;
                    [reflexivity|vm_compute in Hb; discriminate])
              H) as [listing Hl].
  exists listing. split; [exact H | exact Hl].
Defined.

(** ** The answer of the like handler *)

(** X16. In a well-formed store, a successful POST /api/reviews/:id/like
    reports the number of likers now stored; isLiked is true exactly when the
    caller was not a liker before, which is exactly when the caller is one
    now; the count moves by one in that direction; the membership of every
    other user, and the rating, text and editedAt of the review, are
    untouched. *)
Theorem toggleLike_answer
    (st st' : Store) (user : User) (id : ObjectId) (lr : LikeResponse) :
  store_ok st ->
  toggleLike st user id = (st', Json 200 lr) ->
  exists r r',
    Review_findOne_active st id = Some r
    /\ Review_findOne_active st' id = Some r'
    /\ resp_likes lr = likeCount r'
    /\ (resp_isLiked lr = true <-> ~ In (user_id user) (likes r))
    /\ (resp_isLiked lr = true <-> In (user_id user) (likes r'))
    /\ likeCount r' = likeCount r + (if resp_isLiked lr then 1 else -1)
    /\ (forall u, u <> user_id user -> (In u (likes r') <-> In u (likes r)))
    /\ rating r' = rating r /\ reviewText r' = reviewText r
    /\ editedAt r' = editedAt r.
Proof.
  intros Hok. unfold toggleLike.
  destruct (Review_findOne_active st id) as [r|] eqn:Hf; [|discriminate].
  intros H. inversion H; subst st' lr; clear H.
  destruct (findOne_active_spec st id r Hf) as [Hin [Hid Hact]].
  set (u := user_id user).
  set (r' := mkReview (review_id r) (bookId r) (userId r) (rating r) (reviewText r)
               (review_title r) (toggle u (likes r)) (review_isActive r)
               (editedAt r) (review_createdAt r)).
  assert (Hnd : NoDup (likes r)).
  { pose proof (ok_likes st Hok) as Hl. rewrite Forall_forall in Hl. auto. }
  exists r, r'. split; [reflexivity|].
  split.
  { unfold Review_findOne_active. cbn [reviews].
    apply find_update_review with (r := r); auto. apply (ok_ids st Hok). }
  cbn [resp_likes resp_isLiked]. split; [reflexivity|].
  unfold likeCount. cbn [likes r' rating reviewText editedAt].
  destruct (in_dec string_dec u (likes r)) as [Hu|Hu].
  - destruct (indexOf_present (likes r) u Hu) as [l1 [l2 [Hl [Hk Hi]]]].
    rewrite Hi, Hl, toggle_present by exact Hk.
    rewrite Hl in Hnd. apply NoDup_remove_2 in Hnd.
    replace (Z.of_nat (List.length l1) =? -1) with false
      by (symmetry; apply Z.eqb_neq; lia).
    repeat split; try discriminate; try tauto.
    + intros Hn. exfalso. apply Hn. apply in_or_app. right. left. reflexivity.
    + rewrite !length_app. simpl. lia.
    + intros Hx. apply in_app_or in Hx. apply in_or_app.
      destruct Hx as [Hx|Hx]; [left|right; right]; exact Hx.
    + intros Hx. apply in_app_or in Hx. apply in_or_app.
      destruct Hx as [Hx|[Hx|Hx]]; [left; exact Hx | congruence | right; exact Hx].
  - rewrite (indexOf_absent (likes r) u Hu), (toggle_absent u (likes r) Hu).
    repeat split; auto.
    + intros _. apply in_or_app. right. left. reflexivity.
    + rewrite length_app. simpl. lia.
    + intros Hx. apply in_app_or in Hx.
      destruct Hx as [Hx|[Hx|[]]]; [exact Hx | congruence].
    + intros Hx. apply in_or_app. left. exact Hx.
Qed.

Lemma toggleLike_answer_witness :
  exists st' lr r r',
    toggleLike Demo.after_delete Demo.bob "r1" = (st', Json 200 lr)
    /\ Review_findOne_active Demo.after_delete "r1" = Some r
    /\ Review_findOne_active st' "r1" = Some r'
    /\ resp_likes lr = likeCount r'
    /\ (resp_isLiked lr = true <-> ~ In (user_id Demo.bob) (likes r))
    /\ (resp_isLiked lr = true <-> In (user_id Demo.bob) (likes r'))
    /\ likeCount r' = likeCount r + (if resp_isLiked lr then 1 else -1)
    /\ (forall u, u <> user_id Demo.bob -> (In u (likes r') <-> In u (likes r)))
    /\ rating r' = rating r /\ reviewText r' = reviewText r
    /\ editedAt r' = editedAt r.
Proof.
  do 2 eexists.
  assert (H : toggleLike Demo.after_delete Demo.bob "r1" = (_, Json 200 _))
    by (vm_compute; reflexivity).
  destruct (toggleLike_answer Demo.after_delete _ Demo.bob "r1" _
              ltac:(constructor; vm_compute;
                    [nodup_closed | nodup_closed | repeat constructor])
              H) as [r [r' Hr]].
  exists r, r'. split; [exact H | exact Hr].
Defined.

(** ** Creating a book, then reading it *)

Section CreateThenRead.

Variable isbn_match : string -> bool.
Variable currentYear : Z.

Lemma filter_nil {A : Type} (p : A -> bool) (l : list A) :
  (forall x, In x l -> p x = false) -> filter p l = [].
Proof.
  induction l as [|x l IH]; simpl; intros H; [reflexivity|].
  rewrite (H x (or_introl eq_refl)). apply IH. intros y Hy. apply H. right. exact Hy.
Qed.

(** X17. After POST /api/books has stored a book under a fresh id that no
    review references, the single-book handler finds it, with no reviews, an
    averageRating of 0 and all counters at 0, unless the body carried
    [isActive: false], in which case it answers 404; the answers for every
    other id are what they were before. *)
Theorem createBook_then_getBook
    (st st' : Store) (user : User) (body : BookBody) (new_id : ObjectId)
    (now : Date) (d : BookDoc) :
  createBook isbn_match currentYear st user body new_id now = (st', Json 201 d) ->
  ~ In new_id (map book_id (books st)) ->
  (forall r, In r (reviews st) -> bookId r <> new_id) ->
  getBook st' new_id None
  = (if book_isActive (doc d)
     then Json 200 (mkBookResponse (mkBookDoc (doc d) (Some [])) emptyDistribution None)
     else Failure 404 "Book not found")
  /\ (averageRating (mkBookDoc (doc d) (Some [])) == 0)%Q
  /\ forall id' req_user, id' <> new_id ->
       getBook st' id' req_user = getBook st id' req_user.
Proof.
  unfold createBook.
  destruct (new_Book new_id now (cast_body body) (user_id user)) as [b|] eqn:Hn;
    [|discriminate].
  destruct (paths_valid isbn_match currentYear (cast_body body)); [|discriminate].
  intros H Hfresh Hrefs. inversion H; subst st' d; clear H. cbn [doc].
  assert (Hid : book_id b = new_id).
  { unfold new_Book in Hn.
    destruct (body_title (cast_body body)), (body_author (cast_body body)),
      (body_description (cast_body body)), (body_genre (cast_body body)),
      (body_publishedYear (cast_body body)); try discriminate.
    inversion Hn. reflexivity. }
  assert (Hold : forall p : Book -> bool,
             (forall x, p x = true -> book_id x = new_id) ->
             find p (books st) = None).
  { intros p Hp. apply find_none_iff. intros x Hx.
    destruct (p x) eqn:E; [|reflexivity].
    exfalso. apply Hfresh. rewrite <- (Hp x E). apply in_map. exact Hx. }
  split; [|split; [reflexivity|]].
  - unfold getBook, Book_findOne_active. cbn [books].
    rewrite find_app, Hold.
    + simpl. rewrite Hid, oid_eqb_refl. simpl.
      destruct (book_isActive b); [|reflexivity].
      assert (E : populate_reviews_sorted
                    (mkStore (users st) (books st ++ [b]) (reviews st)) b = []).
      { unfold populate_reviews_sorted, populate_reviews, reviews_of. cbn [reviews].
        rewrite filter_nil; [reflexivity|].
        intros r Hr. rewrite Hid. apply oid_eqb_neq. apply Hrefs. exact Hr. }
      rewrite E. reflexivity.
    + intros x Hx. apply andb_true_iff in Hx. destruct Hx as [Hx _].
      apply oid_eqb_eq. exact Hx.
  - intros id' req_user Hne.
    unfold getBook, Book_findOne_active. cbn [books].
    rewrite find_app.
    destruct (find (fun b0 => oid_eqb (book_id b0) id' && book_isActive b0) (books st))
      as [b0|]; [reflexivity|].
    simpl. rewrite Hid.
    assert (E : oid_eqb new_id id' = false) by (apply oid_eqb_neq; congruence).
    rewrite E. reflexivity.
Qed.

End CreateThenRead.

Lemma createBook_then_getBook_witness :
  exists st' d,
    createBook Demo.isbn Demo.year Demo.empty Demo.alice Demo.give_away "b9" 900
    = (st', Json 201 d)
    /\ getBook st' "b9" None
       = (if book_isActive (doc d)
          then Json 200 (mkBookResponse (mkBookDoc (doc d) (Some []))
                           emptyDistribution None)
          else Failure 404 "Book not found")
    /\ (averageRating (mkBookDoc (doc d) (Some [])) == 0)%Q
    /\ forall id' req_user, id' <> "b9" ->
         getBook st' id' req_user = getBook Demo.empty id' req_user.
Proof.
  do 2 eexists.
  assert (H : createBook Demo.isbn Demo.year Demo.empty Demo.alice Demo.give_away
                "b9" 900 = (_, Json 201 _)) by (vm_compute; reflexivity).
  split; [exact H|].
  apply (createBook_then_getBook Demo.isbn Demo.year Demo.empty _ Demo.alice
           Demo.give_away "b9" 900 _ H).
  - vm_compute. intuition discriminate.
  - intros r Hr. vm_compute in Hr. contradiction.
Defined.

(** ** Review listings *)

Lemma review_key_le_total (k : ReviewSortKey) (x y : Review) :
  review_key_le k x y = true \/ review_key_le k y x = true.
Proof. destruct k; simpl; rewrite !Z.leb_le; lia. Qed.

Lemma review_key_le_trans (k : ReviewSortKey) (x y z : Review) :
  review_key_le k x y = true -> review_key_le k y z = true ->
  review_key_le k x z = true.
Proof. destruct k; simpl; rewrite !Z.leb_le; lia. Qed.

Lemma reviews_order_total (q : ReviewsQuery) (x y : Review) :
  reviews_order q x y = true \/ reviews_order q y x = true.
Proof. unfold reviews_order. destruct (rq_sortOrder q); apply review_key_le_total. Qed.

Lemma reviews_order_trans (q : ReviewsQuery) (x y z : Review) :
  reviews_order q x y = true -> reviews_order q y z = true ->
  reviews_order q x z = true.
Proof.
  unfold reviews_order. destruct (rq_sortOrder q); intros H1 H2;
    first [ exact (review_key_le_trans _ _ _ _ H1 H2)
          | exact (review_key_le_trans _ _ _ _ H2 H1) ].
Qed.

(** X18. For page and limit at least 1, GET /api/reviews/book/:bookId
    returns only stored, active reviews
    of that book, each with its author populated, at most [limit] of them and
    in the requested order; its statistics block and totalReviews do not
    depend on the page, the limit or the sort of the request, and
    totalReviews is the number of active reviews of the book. *)
Theorem listBookReviews_page_and_statistics
    (st : Store) (book : ObjectId) (q : ReviewsQuery) (resp : BookReviewsResponse) :
  1 <= rq_page q ->
  1 <= rq_limit q ->
  listBookReviews st book q = Json 200 resp ->
  (forall r, In r (brr_reviews resp) ->
     In (pr_review r) (reviews st)
     /\ bookId (pr_review r) = book
     /\ review_isActive (pr_review r) = true
     /\ pr_user r = RefDoc (User_findById st (userId (pr_review r))))
  /\ (List.length (brr_reviews resp) <= Z.to_nat (rq_limit q))%nat
  /\ StronglySorted (fun a b => reviews_order q (pr_review a) (pr_review b) = true)
       (brr_reviews resp)
  /\ rp_totalReviews (brr_pagination resp)
     = Z.of_nat (List.length (active_reviews_of_book st book))
  /\ stat_totalReviews (brr_statistics resp) = rp_totalReviews (brr_pagination resp)
  /\ forall q', exists resp',
       listBookReviews st book q' = Json 200 resp'
       /\ brr_statistics resp' = brr_statistics resp
       /\ rp_totalReviews (brr_pagination resp') = rp_totalReviews (brr_pagination resp).
Proof.
  unfold listBookReviews. intros _ _ H. inversion H; subst resp; clear H.
  cbn [brr_reviews brr_pagination brr_statistics rp_totalReviews stat_totalReviews
       review_pagination].
  split.
  { intros r Hr. apply in_map_iff in Hr. destruct Hr as [r0 [E Hr0]]. subst r.
    cbn [pr_review pr_user populate_userId].
    apply In_firstn, In_skipn in Hr0. apply sort_by_In in Hr0.
    unfold active_reviews_of_book in Hr0. apply filter_In in Hr0.
    destruct Hr0 as [Hin Hp]. apply andb_true_iff in Hp. destruct Hp as [Hb Ha].
    apply oid_eqb_eq in Hb. auto. }
  split.
  { rewrite length_map, length_firstn. apply Nat.le_min_l. }
  split.
  { apply (StronglySorted_map (populate_userId st)
             (fun a b => reviews_order q (pr_review a) (pr_review b) = true)).
    cbn [pr_review populate_userId].
    apply StronglySorted_firstn, StronglySorted_skipn.
    apply sort_by_sorted; [apply reviews_order_total | apply reviews_order_trans]. }
  split; [reflexivity|]. split; [reflexivity|].
  intros q'. eexists. split; [reflexivity|]. split; reflexivity.
Qed.

Lemma listBookReviews_page_and_statistics_witness :
  let q := mkReviewsQuery 1 10 ByRating Desc in
  exists resp,
    listBookReviews Demo.after_delete "b1" q = Json 200 resp
    /\ (forall r, In r (brr_reviews resp) ->
          In (pr_review r) (reviews Demo.after_delete)
          /\ bookId (pr_review r) = "b1"
          /\ review_isActive (pr_review r) = true
          /\ pr_user r = RefDoc (User_findById Demo.after_delete (userId (pr_review r))))
    /\ (List.length (brr_reviews resp) <= Z.to_nat (rq_limit q))%nat
    /\ StronglySorted (fun a b => reviews_order q (pr_review a) (pr_review b) = true)
         (brr_reviews resp)
    /\ rp_totalReviews (brr_pagination resp)
       = Z.of_nat (List.length (active_reviews_of_book Demo.after_delete "b1"))
    /\ stat_totalReviews (brr_statistics resp) = rp_totalReviews (brr_pagination resp)
    /\ forall q', exists resp',
         listBookReviews Demo.after_delete "b1" q' = Json 200 resp'
         /\ brr_statistics resp' = brr_statistics resp
         /\ rp_totalReviews (brr_pagination resp')
            = rp_totalReviews (brr_pagination resp).
Proof.
  intros q. eexists. split; [reflexivity|].
  apply (listBookReviews_page_and_statistics Demo.after_delete "b1" q).
  - simpl. lia.
  - simpl. lia.
  - reflexivity.
Defined.

Lemma StronglySorted_app_inv {A : Type} (R : A -> A -> Prop) (l1 l2 : list A) :
  StronglySorted R (l1 ++ l2) ->
  forall x y, In x l1 -> In y l2 -> R x y.
Proof.
  induction l1 as [|a l1 IH]; simpl; intros H x y Hx Hy; [contradiction|].
  apply StronglySorted_inv in H. destruct H as [Hs Ha].
  destruct Hx as [Hx|Hx].
  - subst a. rewrite Forall_forall in Ha. apply Ha. apply in_or_app. right. exact Hy.
  - apply IH; assumption.
Qed.

(** X19. For a limit of at least 1, GET /api/reviews/recent returns at most
    [limit] reviews, all stored
    and active, newest first, each with book and author populated; and they
    are the newest ones: no active review left out was created later than a
    review returned. *)
Theorem recentReviews_are_the_newest
    (st : Store) (limit : Z) (frs : list FullReview) :
  1 <= limit ->
  recentReviews st limit = Json 200 frs ->
  let rs := map fr_review frs in
  (List.length frs <= Z.to_nat limit)%nat
  /\ (forall r, In r rs -> In r (reviews st) /\ review_isActive r = true)
  /\ StronglySorted (fun a b => review_createdAt b <= review_createdAt a) rs
  /\ (forall fr, In fr frs ->
        fr_book fr = Book_findById st (bookId (fr_review fr))
        /\ fr_user fr = User_findById st (userId (fr_review fr)))
  /\ (forall r r', In r rs -> In r' (reviews st) -> review_isActive r' = true ->
        ~ In r' rs -> review_createdAt r' <= review_createdAt r).
Proof.
  unfold recentReviews. intros _ H. inversion H; subst frs; clear H. cbv zeta.
  set (sorted := sort_by newest_first (filter review_isActive (reviews st))).
  assert (Hmap : map fr_review
                   (map (populate_both st) (firstn (Z.to_nat limit) sorted))
                 = firstn (Z.to_nat limit) sorted).
  { rewrite map_map. cbn [fr_review populate_both]. apply map_id. }
  rewrite Hmap.
  assert (Hsorted : StronglySorted (fun a b => newest_first a b = true) sorted).
  { apply sort_by_sorted; unfold newest_first; intros;
      rewrite ?Z.leb_le in *; lia. }
  assert (Hmem : forall r, In r sorted <-> In r (reviews st) /\ review_isActive r = true).
  { intros r. unfold sorted. rewrite sort_by_In, filter_In. tauto. }
  split; [rewrite length_map, length_firstn; apply Nat.le_min_l|].
  split; [intros r Hr; apply Hmem; apply (In_firstn _ _ _ Hr)|].
  split.
  { apply StronglySorted_firstn.
    clear - Hsorted. induction Hsorted as [|a l Hs IH Ha]; constructor; [exact IH|].
    rewrite Forall_forall in *. intros x Hx. specialize (Ha x Hx).
    unfold newest_first in Ha. apply Z.leb_le. exact Ha. }
  split.
  { intros fr Hfr. apply in_map_iff in Hfr. destruct Hfr as [r [E _]]. subst fr.
    split; reflexivity. }
  intros r r' Hr Hin' Hact' Hout.
  assert (Hr' : In r' (skipn (Z.to_nat limit) sorted)).
  { assert (H : In r' sorted) by (apply Hmem; auto).
    rewrite <- (firstn_skipn (Z.to_nat limit) sorted) in H.
    apply in_app_or in H. destruct H as [H|H]; [contradiction|exact H]. }
  rewrite <- (firstn_skipn (Z.to_nat limit) sorted) in Hsorted.
  pose proof (StronglySorted_app_inv _ _ _ Hsorted r r' Hr Hr') as H.
  unfold newest_first in H. apply Z.leb_le. exact H.
Qed.

Lemma recentReviews_are_the_newest_witness :
  exists frs,
    recentReviews Demo.two_books 1 = Json 200 frs
    /\ let rs := map fr_review frs in
       (List.length frs <= Z.to_nat 1)%nat
       /\ (forall r, In r rs -> In r (reviews Demo.two_books) /\ review_isActive r = true)
       /\ StronglySorted (fun a b => review_createdAt b <= review_createdAt a) rs
       /\ (forall fr, In fr frs ->
             fr_book fr = Book_findById Demo.two_books (bookId (fr_review fr))
             /\ fr_user fr = User_findById Demo.two_books (userId (fr_review fr)))
       /\ (forall r r', In r rs -> In r' (reviews Demo.two_books) ->
             review_isActive r' = true ->
             ~ In r' rs -> review_createdAt r' <= review_createdAt r).
Proof.
  eexists. split; [reflexivity|].
  apply (recentReviews_are_the_newest Demo.two_books 1).
  - lia.
  - reflexivity.
Defined.

(** ** Public profile, leaderboard and user search *)

(** X20. GET /api/users/:id/profile (its handler, reached once the id has
    passed validateObjectId) answers 404 exactly when no stored user
    with that id is active. Otherwise it shows that user without the email,
    the user's six newest active books and six newest active reviews (fewer
    when there are fewer), never a soft-deleted one, and counts that are the
    numbers of the user's active books and reviews. *)
Theorem getProfile_shows_active_documents (st : Store) (id : ObjectId) :
  match getProfile st id with
  | Failure status _ =>
      status = 404
      /\ forall u, In u (users st) -> user_id u = id -> user_isActive u = false
  | Json status p =>
      status = 200
      /\ (exists u, In u (users st) /\ user_isActive u = true /\ user_id u = id
                    /\ pf_user p = public_user u)
      /\ (forall b, In b (pf_books p) ->
            In b (books st) /\ addedBy b = id /\ book_isActive b = true)
      /\ (forall rb, In rb (pf_reviews p) ->
            In (fst rb) (reviews st) /\ userId (fst rb) = id
            /\ review_isActive (fst rb) = true
            /\ snd rb = Book_findById st (bookId (fst rb)))
      /\ pf_booksCount p = Z.of_nat (List.length (active_books_of st id))
      /\ pf_reviewsCount p = Z.of_nat (List.length (active_reviews_by st id))
      /\ Z.of_nat (List.length (pf_books p)) = Z.min 6 (pf_booksCount p)
      /\ Z.of_nat (List.length (pf_reviews p)) = Z.min 6 (pf_reviewsCount p)
      /\ StronglySorted (fun a b => book_createdAt b <= book_createdAt a) (pf_books p)
  | Raised _ => False
  end.
Proof.
  unfold getProfile.
  destruct (find (fun u => oid_eqb (user_id u) id && user_isActive u) (users st))
    as [u|] eqn:Hf.
  - apply find_some in Hf. destruct Hf as [Hin Hp].
    apply andb_true_iff in Hp. destruct Hp as [Hid Hact].
    apply oid_eqb_eq in Hid. subst id.
    cbn [pf_user pf_books pf_reviews pf_booksCount pf_reviewsCount].
    split; [reflexivity|].
    split; [exists u; auto|].
    split.
    { intros b Hb. apply In_firstn in Hb. apply sort_by_In in Hb.
      unfold active_books_of in Hb. apply filter_In in Hb.
      destruct Hb as [Hb Hp]. apply andb_true_iff in Hp. destruct Hp as [H1 H2].
      apply oid_eqb_eq in H1. auto. }
    split.
    { intros rb Hrb. apply in_map_iff in Hrb. destruct Hrb as [r [E Hr]]. subst rb.
      cbn [fst snd]. apply In_firstn in Hr. apply sort_by_In in Hr.
      unfold active_reviews_by in Hr. apply filter_In in Hr.
      destruct Hr as [Hr Hp]. apply andb_true_iff in Hp. destruct Hp as [H1 H2].
      apply oid_eqb_eq in H1. auto. }
    split; [reflexivity|]. split; [reflexivity|].
    split; [rewrite length_firstn, sort_by_length; lia|].
    split; [rewrite length_map, length_firstn, sort_by_length; lia|].
    apply StronglySorted_firstn.
    assert (Hs : StronglySorted
                   (fun a b => (book_createdAt b <=? book_createdAt a) = true)
                   (sort_by (fun x y => book_createdAt y <=? book_createdAt x)
                      (active_books_of st (user_id u)))).
    { apply sort_by_sorted; intros; rewrite ?Z.leb_le in *; lia. }
    induction Hs as [|a l Hs IH Ha]; constructor; [exact IH|].
    rewrite Forall_forall in *. intros x Hx. apply Z.leb_le. apply Ha. exact Hx.
  - split; [reflexivity|].
    intros u Hu Hid.
    pose proof (find_none _ _ Hf u Hu) as Hn. simpl in Hn.
    rewrite Hid, oid_eqb_refl in Hn. exact Hn.
Qed.

Lemma count_occ_map_filter {A : Type} (f : A -> ObjectId) (p : A -> bool)
    (l : list A) (k : ObjectId) :
  count_occ string_dec (map f (filter p l)) k
  = List.length (filter (fun x => oid_eqb (f x) k && p x) l).
Proof.
  induction l as [|x l IH]; simpl; [reflexivity|].
  destruct (p x); simpl.
  - destruct (string_dec (f x) k) as [E|E].
    + apply oid_eqb_eq in E. rewrite E. simpl. rewrite IH. reflexivity.
    + apply oid_eqb_neq in E. rewrite E. simpl. exact IH.
  - rewrite andb_false_r. exact IH.
Qed.

Lemma group_count_spec (keys : list ObjectId) (g : ObjectId * Z) :
  In g (group_count keys) ->
  In (fst g) keys /\ snd g = Z.of_nat (count_occ string_dec keys (fst g)) /\ 1 <= snd g.
Proof.
  unfold group_count. intros H. apply in_map_iff in H.
  destruct H as [k [E Hk]]. subst g. cbn [fst snd].
  apply nodup_In in Hk. split; [exact Hk|]. split; [reflexivity|].
  apply (count_occ_In string_dec) in Hk. lia.
Qed.

(** X21. For a limit of at least 1, every entry of the leaderboard joins a
    stored, active user with the
    number of that user's active books (type 'books') or active reviews
    (type 'reviews'), which is at least 1; entries come with counts
    non-increasing and there are at most [limit] of them; any other type
    gives an empty board. *)
Theorem leaderboard_entries (st : Store) (type : BoardType) (limit : Z) :
  1 <= limit ->
  let board := leaderboard st type limit in
  (List.length board <= Z.to_nat limit)%nat
  /\ StronglySorted (fun a b => be_count b <= be_count a) board
  /\ (type = BoardOther -> board = [])
  /\ forall e, In e board ->
       In (be_user e) (users st)
       /\ user_isActive (be_user e) = true
       /\ user_id (be_user e) = be_id e
       /\ 1 <= be_count e
       /\ be_count e
          = match type with
            | BoardBooks => Z.of_nat (List.length (active_books_of st (be_id e)))
            | BoardReviews => Z.of_nat (List.length (active_reviews_by st (be_id e)))
            | BoardOther => 0
            end.
Proof.
  intros _ board.
  assert (Hsorted : forall l : list BoardEntry,
             StronglySorted (fun a b => be_count b <= be_count a)
               (firstn (Z.to_nat limit)
                  (sort_by (fun x y => be_count y <=? be_count x) l))).
  { intros l. apply StronglySorted_firstn.
    assert (Hs : StronglySorted (fun a b => (be_count b <=? be_count a) = true)
                   (sort_by (fun x y => be_count y <=? be_count x) l)).
    { apply sort_by_sorted; intros; rewrite ?Z.leb_le in *; lia. }
    induction Hs as [|a l0 Hs IH Ha]; constructor; [exact IH|].
    rewrite Forall_forall in *. intros x Hx. apply Z.leb_le. apply Ha. exact Hx. }
  assert (Hentry : forall keys e,
             In e (firstn (Z.to_nat limit)
                     (sort_by (fun x y => be_count y <=? be_count x)
                        (filter (fun e => user_isActive (be_user e))
                           (join_users st (group_count keys))))) ->
             In (be_user e) (users st) /\ user_isActive (be_user e) = true
             /\ user_id (be_user e) = be_id e /\ 1 <= be_count e
             /\ be_count e = Z.of_nat (count_occ string_dec keys (be_id e))).
  { intros keys e He. apply In_firstn in He. apply sort_by_In in He.
    apply filter_In in He. destruct He as [He Hact].
    unfold join_users in He. apply in_flat_map in He.
    destruct He as [g [Hg He]]. apply in_map_iff in He.
    destruct He as [u [E Hu]]. subst e. cbn [be_user be_id be_count] in *.
    apply filter_In in Hu. destruct Hu as [Hu Hid]. apply oid_eqb_eq in Hid.
    destruct (group_count_spec keys g Hg) as [_ [Hc H1]]. auto. }
  unfold board, leaderboard. destruct type.
  - split; [rewrite length_firstn; apply Nat.le_min_l|].
    split; [apply Hsorted|]. split; [discriminate|].
    intros e He. destruct (Hentry _ e He) as [H1 [H2 [H3 [H4 H5]]]].
    repeat split; auto. rewrite H5, count_occ_map_filter. reflexivity.
  - split; [rewrite length_firstn; apply Nat.le_min_l|].
    split; [apply Hsorted|]. split; [discriminate|].
    intros e He. destruct (Hentry _ e He) as [H1 [H2 [H3 [H4 H5]]]].
    repeat split; auto. rewrite H5, count_occ_map_filter. reflexivity.
  - split; [simpl; lia|]. split; [constructor|]. split; [reflexivity|].
    intros e [].
Qed.

Section SearchProperties.

Variable regex_i : string -> string -> bool.
Variable user_bio : User -> string.


End SearchProperties.

Lemma leaderboard_entries_witness :
  let board := leaderboard Sample.three_users BoardBooks 10 in
  (List.length board <= Z.to_nat 10)%nat
  /\ StronglySorted (fun a b => be_count b <= be_count a) board
  /\ (BoardBooks = BoardOther -> board = [])
  /\ forall e, In e board ->
       In (be_user e) (users Sample.three_users)
       /\ user_isActive (be_user e) = true
       /\ user_id (be_user e) = be_id e
       /\ 1 <= be_count e
       /\ be_count e
          = Z.of_nat (List.length (active_books_of Sample.three_users (be_id e))).
Proof.
  apply (leaderboard_entries Sample.three_users BoardBooks 10). lia.
Defined.


(** ** Similar books *)


(** ** Updating a book *)

Lemma apply_body_idem (body : BookBody) (b : Book) :
  apply_body body (apply_body body b) = apply_body body b.
Proof.
  unfold apply_body. destruct body as [t a d g y i c p l pu tg ab ia].
  cbn [book_id title author description genre publishedYear isbn coverImage
       pageCount language publisher addedBy tags book_isActive book_createdAt
       body_title body_author body_description body_genre body_publishedYear
       body_isbn body_coverImage body_pageCount body_language body_publisher
       body_tags body_addedBy body_isActive].
  destruct t, a, d, g, y, i, c, p, l, pu, tg, ab, ia; reflexivity.
Qed.

Lemma update_book_ids (id : ObjectId) (f : Book -> Book) (l : list Book) :
  (forall b, book_id (f b) = book_id b) ->
  map book_id (update_book id f l) = map book_id l.
Proof.
  intros Hf. induction l as [|b l IH]; simpl; [reflexivity|].
  destruct (oid_eqb (book_id b) id); simpl; [rewrite Hf|rewrite IH]; reflexivity.
Qed.

Lemma update_book_twice (id : ObjectId) (f : Book -> Book) (l : list Book) :
  (forall b, book_id (f b) = book_id b) ->
  (forall b, f (f b) = f b) ->
  update_book id f (update_book id f l) = update_book id f l.
Proof.
  intros Hid Hf. induction l as [|b l IH]; simpl; [reflexivity|].
  destruct (oid_eqb (book_id b) id) eqn:E; simpl.
  - rewrite Hid, E, Hf. reflexivity.
  - rewrite E, IH. reflexivity.
Qed.

Lemma find_update_book (p : Book -> bool) (id : ObjectId) (f : Book -> Book)
    (l : list Book) (b : Book) :
  NoDup (map book_id l) -> In b l -> book_id b = id ->
  (forall x, p x = true -> book_id x = id) ->
  p (f b) = true ->
  find p (update_book id f l) = Some (f b).
Proof.
  intros Hnd Hin Hid Hp Hfb.
  induction l as [|a l IH]; simpl in *; [contradiction|].
  inversion Hnd as [|x xs Hna Hnd']; subst.
  destruct (oid_eqb (book_id a) (book_id b)) eqn:E; simpl.
  - apply oid_eqb_eq in E.
    destruct Hin as [Ha|Hin].
    + subst a. rewrite Hfb. reflexivity.
    + exfalso. apply Hna. rewrite E. apply in_map. exact Hin.
  - apply oid_eqb_neq in E.
    destruct Hin as [Ha|Hin]; [subst a; contradiction|].
    destruct (p a) eqn:Epa; [exfalso; apply E; apply Hp; exact Epa|].
    apply IH; assumption.
Qed.

Section UpdateBook.

Variable isbn_match : string -> bool.
Variable currentYear : Z.

(** X24. A successful PUT /api/books/:id (book ids being unique) was sent
    by the owner of the active book; it sets the paths the body carries and
    keeps the id and the creation time; the answer is the stored document;
    other books, all reviews and all users are untouched. When the body names
    neither addedBy nor isActive, sending the same request again gives the
    same answer and leaves the store as the first one left it. *)
Theorem updateBook_effect
    (st st' : Store) (user : User) (id : ObjectId) (body : BookBody) (d : BookDoc) :
  NoDup (map book_id (books st)) ->
  updateBook isbn_match currentYear st user id body = (st', Json 200 d) ->
  exists b,
    Book_findOne_active st id = Some b
    /\ addedBy b = user_id user
    /\ doc d = apply_body (cast_body body) b
    /\ book_id (doc d) = id
    /\ book_createdAt (doc d) = book_createdAt b
    /\ Book_findById st' id = Some (doc d)
    /\ users st' = users st /\ reviews st' = reviews st
    /\ map book_id (books st') = map book_id (books st)
    /\ (forall b0, In b0 (books st) -> book_id b0 <> id -> In b0 (books st'))
    /\ (body_addedBy body = None -> body_isActive body = None ->
        updateBook isbn_match currentYear st' user id body = (st', Json 200 d)).
Proof.
  intros Hnd. unfold updateBook.
  destruct (Book_findOne_active st id) as [b|] eqn:Hf; [|discriminate].
  destruct (addedBy b =? user_id user)%string eqn:Hown; simpl; [|discriminate].
  destruct (paths_valid isbn_match currentYear (cast_body body)) eqn:Hv;
    [|discriminate].
  unfold Book_findOne_active in Hf. pose proof Hf as Hf0.
  apply find_some in Hf. destruct Hf as [Hin Hp].
  apply andb_true_iff in Hp. destruct Hp as [Hid Hact]. apply oid_eqb_eq in Hid.
  set (f := apply_body (cast_body body)).
  assert (Hfid : forall x, book_id (f x) = book_id x) by reflexivity.
  assert (Hbyid : Book_findById
                    (mkStore (users st) (update_book id f (books st)) (reviews st)) id
                  = Some (f b)).
  { unfold Book_findById. cbn [books].
    apply find_update_book; auto.
    - intros x Hx. apply oid_eqb_eq. exact Hx.
    - rewrite Hfid, Hid. apply oid_eqb_refl. }
  rewrite Hbyid. intros H. inversion H; subst st' d; clear H.
  cbn [doc users reviews books].
  exists b. split; [reflexivity|].
  split; [apply String.eqb_eq; exact Hown|].
  split; [reflexivity|]. split; [rewrite Hfid; exact Hid|].
  split; [reflexivity|]. split; [exact Hbyid|].
  split; [reflexivity|]. split; [reflexivity|].
  split; [apply update_book_ids; exact Hfid|].
  split; [intros b0 Hb0 Hne; apply update_book_others; assumption|].
  intros Hab Hia.
  assert (Hact' : book_isActive (f b) = true).
  { unfold f, apply_body, cast_body. cbn [book_isActive body_isActive].
    rewrite Hia. exact Hact. }
  assert (Hown' : addedBy (f b) = addedBy b).
  { unfold f, apply_body, cast_body. cbn [addedBy body_addedBy].
    rewrite Hab. reflexivity. }
  assert (Hfind' : find (fun x => oid_eqb (book_id x) id && book_isActive x)
                     (update_book id f (books st)) = Some (f b)).
  { apply find_update_book; auto.
    - intros x Hx. apply andb_true_iff in Hx. destruct Hx as [Hx _].
      apply oid_eqb_eq. exact Hx.
    - rewrite Hfid, Hid, oid_eqb_refl, Hact'. reflexivity. }
  unfold Book_findOne_active. cbn [books]. rewrite Hfind', Hown', Hown.
  cbn [negb].
  rewrite (update_book_twice id f (books st) Hfid (apply_body_idem (cast_body body))).
  rewrite Hbyid. reflexivity.
Qed.

End UpdateBook.

Lemma updateBook_effect_witness :
  let body := mkBookBody (Some "Dune ") None None None (Some 1966)
                None None None None None None None None in
  exists st' d b,
    updateBook Demo.isbn Demo.year Demo.empty Demo.alice "b1" body = (st', Json 200 d)
    /\ Book_findOne_active Demo.empty "b1" = Some b
    /\ addedBy b = user_id Demo.alice
    /\ doc d = apply_body (cast_body body) b
    /\ book_id (doc d) = "b1"
    /\ book_createdAt (doc d) = book_createdAt b
    /\ Book_findById st' "b1" = Some (doc d)
    /\ users st' = users Demo.empty /\ reviews st' = reviews Demo.empty
    /\ map book_id (books st') = map book_id (books Demo.empty)
    /\ (forall b0, In b0 (books Demo.empty) -> book_id b0 <> "b1" -> In b0 (books st'))
    /\ (body_addedBy body = None -> body_isActive body = None ->
        updateBook Demo.isbn Demo.year st' Demo.alice "b1" body = (st', Json 200 d)).
Proof.
  intros body. do 2 eexists.
  assert (H : updateBook Demo.isbn Demo.year Demo.empty Demo.alice "b1" body
              = (_, Json 200 _)) by (vm_compute; reflexivity).
  destruct (updateBook_effect Demo.isbn Demo.year Demo.empty _ Demo.alice "b1" body _
              ltac:(vm_compute; nodup_closed) H) as [b Hb].
  exists b. split; [exact H | exact Hb].
Defined.

(** ** The rating chart *)






Lemma fold_max_ge (l : list Z) (a : Z) :
  a <= fold_left Z.max l a /\ forall x, In x l -> x <= fold_left Z.max l a.
Proof.
  revert a. induction l as [|y l IH]; intros a; simpl; [split; [lia|tauto]|].
  destruct (IH (Z.max a y)) as [H1 H2]. split; [lia|].
  intros x [E|Hx]; [subst x; lia | apply H2; exact Hx].
Qed.

Lemma fold_max_attained (l : list Z) (a : Z) :
  fold_left Z.max l a = a \/ In (fold_left Z.max l a) l.
Proof.
  revert a. induction l as [|y l IH]; intros a; simpl; [left; reflexivity|].
  destruct (IH (Z.max a y)) as [E|Hin].
  - rewrite E. destruct (Z.max_spec a y) as [[_ Em]|[_ Em]]; rewrite Em; auto.
  - right. right. exact Hin.
Qed.

Lemma bar_width_value (m c : Z) :
  0 < m -> 0 <= c <= m ->
  (0 <= (inject_Z c / inject_Z m) * 100 <= 100)%Q
  /\ (c = m -> ((inject_Z c / inject_Z m) * 100 == 100)%Q).
Proof.
  intros Hm Hc. destruct m as [|m|m]; try lia.
  unfold Qle, Qeq, Qdiv, Qmult, Qinv, inject_Z. simpl.
  split; [split; nia | intros E; subst c; nia].
Qed.

(** X26. In the rating chart with non-negative counters, the bar of every
    star value is between 0 and 100 percent wide, and when some counter is
    positive a star value with the largest counter has a bar of exactly
    100. *)
Theorem RatingChart_bar_widths (d : RatingDistribution) :
  (forall kv, In kv d -> 0 <= snd kv) ->
  (forall kv, In kv d -> (0 <= Ui.getBarWidth d (snd kv) <= 100)%Q)
  /\ (Ui.maxCount d <> 0 ->
      exists kv, In kv d /\ snd kv = Ui.maxCount d
                 /\ (Ui.getBarWidth d (snd kv) == 100)%Q).
Proof.
  intros Hpos.
  assert (Hge : forall x, In x (map snd d) -> x <= Ui.maxCount d).
  { unfold Ui.maxCount. destruct (map snd d) as [|c cs]; [intros x []|].
    destruct (fold_max_ge cs c) as [H0 Hge].
    intros x [E|Hx]; [subst x; exact H0 | apply Hge; exact Hx]. }
  assert (Hin : Ui.maxCount d = 0 \/ In (Ui.maxCount d) (map snd d)).
  { unfold Ui.maxCount. destruct (map snd d) as [|c cs]; [left; reflexivity|].
    right. destruct (fold_max_attained cs c) as [E|H]; [left; symmetry|right]; auto. }
  split.
  - intros kv Hkv. unfold Ui.getBarWidth.
    destruct (Ui.maxCount d =? 0) eqn:E; [split; [apply Qle_refl | discriminate]|].
    apply Z.eqb_neq in E.
    pose proof (Hge (snd kv) (in_map snd d kv Hkv)) as Hle.
    pose proof (Hpos kv Hkv) as H0.
    apply bar_width_value; lia.
  - intros Hne. destruct Hin as [E|Hin]; [contradiction|].
    apply in_map_iff in Hin. destruct Hin as [kv [E Hkv]].
    pose proof (Hpos kv Hkv) as H0.
    exists kv. split; [exact Hkv|]. split; [exact E|].
    unfold Ui.getBarWidth. rewrite E.
    replace (Ui.maxCount d =? 0) with false by (symmetry; apply Z.eqb_neq; exact Hne).
    apply bar_width_value; lia.
Qed.

Lemma RatingChart_bar_widths_witness :
  let d := [(1, 0); (2, 0); (3, 1); (4, 0); (5, 1)] in
  (forall kv, In kv d -> (0 <= Ui.getBarWidth d (snd kv) <= 100)%Q)
  /\ (Ui.maxCount d <> 0 ->
      exists kv, In kv d /\ snd kv = Ui.maxCount d
                 /\ (Ui.getBarWidth d (snd kv) == 100)%Q).
Proof.
  apply (RatingChart_bar_widths [(1, 0); (2, 0); (3, 1); (4, 0); (5, 1)]).
  intros kv Hkv. simpl in Hkv.
  destruct Hkv as [E|[E|[E|[E|[E|[]]]]]]; subst kv; simpl; lia.
Defined.

(** ** What every script of requests preserves *)

Section ScriptInvariants.

Variable isbn_match : string -> bool.
Variable currentYear : Z.

(** X27. From a well-formed store, after any script of write requests the
    review ids are still pairwise distinct and no liker array holds a user
    twice. *)
Theorem run_keeps_ids_and_likers_distinct (st : Store) (ops : list Op) :
  store_ok st ->
  NoDup (map review_id (reviews (run isbn_match currentYear st ops)))
  /\ forall r, In r (reviews (run isbn_match currentYear st ops)) -> NoDup (likes r).
Proof.
  intros Hok. destruct (run_ok isbn_match currentYear ops st Hok) as [Hok' _].
  split; [apply (ok_ids _ Hok')|].
  pose proof (ok_likes _ Hok') as Hl. rewrite Forall_forall in Hl. exact Hl.
Qed.




End ScriptInvariants.

Lemma run_keeps_ids_and_likers_distinct_witness :
  NoDup (map review_id (reviews (run Demo.isbn Demo.year Demo.empty Demo.script)))
  /\ forall r, In r (reviews (run Demo.isbn Demo.year Demo.empty Demo.script)) ->
       NoDup (likes r).
Proof.
  apply (run_keeps_ids_and_likers_distinct Demo.isbn Demo.year Demo.empty Demo.script).
  constructor; vm_compute; [nodup_closed | nodup_closed | repeat constructor].
Defined.


(** ** Reviews of one user *)

(** X29. For page and limit at least 1, GET /api/reviews/user/:userId
    returns at most [limit] reviews, all stored, active and written by that
    user, newest first, each with its book and author populated; totalReviews
    is the number of the user's active reviews and totalPages is that number
    divided by limit, rounded up; pages past the last are empty. *)
Theorem listUserReviews_answer
    (st : Store) (user : ObjectId) (page limit : Z) (resp : UserReviewsResponse) :
  1 <= page ->
  1 <= limit ->
  listUserReviews st user page limit = Json 200 resp ->
  let pg := urr_pagination resp in
  (forall fr, In fr (urr_reviews resp) ->
     In (fr_review fr) (reviews st)
     /\ userId (fr_review fr) = user
     /\ review_isActive (fr_review fr) = true
     /\ fr_book fr = Book_findById st (bookId (fr_review fr))
     /\ fr_user fr = User_findById st (userId (fr_review fr)))
  /\ Z.of_nat (List.length (urr_reviews resp)) <= limit
  /\ StronglySorted
       (fun a b => review_createdAt (fr_review b) <= review_createdAt (fr_review a))
       (urr_reviews resp)
  /\ rp_totalReviews pg = Z.of_nat (List.length (active_reviews_by st user))
  /\ (rp_totalPages pg - 1) * limit < rp_totalReviews pg <= rp_totalPages pg * limit
  /\ (rp_totalPages pg < page -> urr_reviews resp = [])
  /\ (rp_hasNextPage pg = true <-> page < rp_totalPages pg).
Proof.
  intros Hp Hl. unfold listUserReviews. intros H. inversion H; subst resp; clear H.
  cbn [urr_reviews urr_pagination review_pagination rp_totalReviews rp_totalPages
       rp_hasNextPage].
  fold (active_reviews_by st user).
  set (matched := active_reviews_by st user).
  pose proof (Math_ceil_div (Z.of_nat (List.length matched)) limit Hl) as Hc.
  cbv zeta in Hc.
  set (pages := Js.Math_ceil _) in *.
  split.
  { intros fr Hfr. apply in_map_iff in Hfr. destruct Hfr as [r [E Hr]]. subst fr.
    cbn [fr_review fr_book fr_user populate_both].
    apply In_firstn, In_skipn in Hr. apply sort_by_In in Hr.
    unfold matched, active_reviews_by in Hr. apply filter_In in Hr.
    destruct Hr as [Hin Hq]. apply andb_true_iff in Hq. destruct Hq as [Hu Ha].
    apply oid_eqb_eq in Hu. auto. }
  split; [rewrite length_map, length_firstn; lia|].
  split.
  { apply (StronglySorted_map (populate_both st)
             (fun a b => review_createdAt (fr_review b) <= review_createdAt (fr_review a))).
    cbn [fr_review populate_both].
    apply StronglySorted_firstn, StronglySorted_skipn.
    assert (Hs : StronglySorted (fun a b => newest_first a b = true)
                   (sort_by newest_first matched)).
    { apply sort_by_sorted; unfold newest_first; intros;
        rewrite ?Z.leb_le in *; lia. }
    induction Hs as [|a l Hs IH Ha]; constructor; [exact IH|].
    rewrite Forall_forall in *. intros x Hx. specialize (Ha x Hx).
    unfold newest_first in Ha. apply Z.leb_le. exact Ha. }
  split; [reflexivity|]. split; [exact Hc|].
  split.
  { intros Hlt.
    assert (E : List.length
                  (map (populate_both st)
                     (firstn (Z.to_nat limit)
                        (skipn (Z.to_nat ((page - 1) * limit))
                           (sort_by newest_first matched)))) = 0%nat).
    { rewrite length_map, page_length, sort_by_length. nia. }
    apply length_zero_iff_nil. exact E. }
  apply Z.ltb_lt.
Qed.

Lemma listUserReviews_answer_witness :
  exists resp,
    listUserReviews Demo.after_delete "u1" 1 10 = Json 200 resp
    /\ let pg := urr_pagination resp in
       (forall fr, In fr (urr_reviews resp) ->
          In (fr_review fr) (reviews Demo.after_delete)
          /\ userId (fr_review fr) = "u1"
          /\ review_isActive (fr_review fr) = true
          /\ fr_book fr = Book_findById Demo.after_delete (bookId (fr_review fr))
          /\ fr_user fr = User_findById Demo.after_delete (userId (fr_review fr)))
       /\ Z.of_nat (List.length (urr_reviews resp)) <= 10
       /\ StronglySorted
            (fun a b => review_createdAt (fr_review b) <= review_createdAt (fr_review a))
            (urr_reviews resp)
       /\ rp_totalReviews pg
          = Z.of_nat (List.length (active_reviews_by Demo.after_delete "u1"))
       /\ (rp_totalPages pg - 1) * 10 < rp_totalReviews pg <= rp_totalPages pg * 10
       /\ (rp_totalPages pg < 1 -> urr_reviews resp = [])
       /\ (rp_hasNextPage pg = true <-> 1 < rp_totalPages pg).
Proof.
  eexists. split; [reflexivity|].
  apply (listUserReviews_answer Demo.after_delete "u1" 1 10); [lia | lia | reflexivity].
Defined.
